(** * AutoClicker.py: the rate-controlled click loop and its reporters

    A shallow embedding of the functional core of [McAllenClicker]
    (src/AutoClicker.py, lines 386-517 and the hotkey recording at 297-356):
    the session state, the three worker loops and the commands the
    presentation layer sends to them.

    Conventions of the embedding.
    - Python [float] is IEEE binary64; it is modelled by [spec_float] of the
      Standard Library with [prec = 53] and [emax = 1024], the executable
      specification of binary64 arithmetic.
    - Python [int] is unbounded and modelled by [Z].
    - Every call that reaches outside the object (mouse injection, keyboard
      hooks, widget updates, [print], [time.sleep], message boxes, thread
      creation) is appended to the [out] trace of the state, oldest first.
      Colour changes of the buttons ([configure_colors]) are presentation
      only and are left out of the trace.
    - What the outside answers (the clock, Tk variables owned by widgets,
      dialog answers, whether an external call raises) is an argument of the
      operation that consumes it.
    - Exceptions carry no payload: every handler of the source is
      [except Exception].
    - The threads are interleaved at two granularities.  In [run] one [op]
      is one command or one whole pass of one loop.  The source takes no
      lock, so [fine_run] also lets a click thread stop between its two
      counter updates (lines 458 and 459) and lets other steps happen while
      the confirmation dialog of [reset_stats] is open. *)

From Stdlib Require Import ZArith List String Ascii Bool Lia.
From Stdlib Require Import Floats.SpecFloat.
Import ListNotations.

Local Open Scope Z_scope.

(** ** Python floats *)

Module PyFloat.

Definition float : Type := spec_float.

Definition prec : Z := 53.
Definition emax : Z := 1024.

(** The binary64 value nearest to [m * 2^e]. *)
Definition of_dyadic (m e : Z) : float := binary_normalize prec emax m e false.

Definition of_int (z : Z) : float := of_dyadic z 0.

(** The literals of the source, as binary64 values. *)
Definition lit_1_0 : float := S754_finite false 4503599627370496 (-52).
Definition lit_0_1 : float := S754_finite false 7205759403792794 (-56).
Definition lit_0_002 : float := S754_finite false 4611686018427388 (-61).
Definition lit_0_001 : float := S754_finite false 4611686018427388 (-62).
Definition lit_0_01 : float := S754_finite false 5764607523034235 (-59).
Definition lit_0_06 : float := S754_finite false 8646911284551352 (-57).

(** [x - y] *)
Definition sub (x y : float) : float := SFsub prec emax x y.

(** [x < y] and [x <= y]; both are [False] when an operand is NaN. *)
Definition ltb (x y : float) : bool := SFltb x y.
Definition leb (x y : float) : bool := SFleb x y.

Definition is_zero (x : float) : bool :=
  match x with
  | S754_zero _ => true
  | _ => false
  end.

(** [x / y]: Python raises [ZeroDivisionError] on a zero divisor of either
    sign ([None] here) and otherwise divides as IEEE does. *)
Definition truediv (x y : float) : option float :=
  if is_zero y then None else Some (SFdiv prec emax x y).

(** The builtin [max(a, b)]: keeps [a] unless [b > a]. *)
Definition max (a b : float) : float := if ltb a b then b else a.

(** [int(x)]: truncation toward zero; raises on infinities and NaN. *)
Definition to_int (x : float) : option Z :=
  match x with
  | S754_zero _ => Some 0
  | S754_finite s m e => Some (cond_Zopp s (Z.shiftl (Zpos m) e))
  | S754_infinity _ | S754_nan => None
  end.

End PyFloat.

(** ** Key names

    [str.upper] and [str.lower] on the ASCII range; key names are modelled as
    ASCII strings. *)

Definition upper_char (c : ascii) : ascii :=
  let n := nat_of_ascii c in
  if (Nat.leb 97 n && Nat.leb n 122)%bool then ascii_of_nat (n - 32) else c.

Definition lower_char (c : ascii) : ascii :=
  let n := nat_of_ascii c in
  if (Nat.leb 65 n && Nat.leb n 90)%bool then ascii_of_nat (n + 32) else c.

Fixpoint upper (s : string) : string :=
  match s with
  | EmptyString => EmptyString
  | String c r => String (upper_char c) (upper r)
  end.

Fixpoint lower (s : string) : string :=
  match s with
  | EmptyString => EmptyString
  | String c r => String (lower_char c) (lower r)
  end.

(** Truthiness of an optional string: [None] and [""] are false. *)
Definition truthy (k : option string) : option string :=
  match k with
  | Some EmptyString | None => None
  | Some s => Some s
  end.

(** ** The application object *)

Module McAllenClicker.

Import PyFloat.

Inductive thread_target : Type :=
| target_click_loop
| target_monitor_cps
| target_update_timer.

Inductive widget : Type :=
| start_btn
| hotkey_btn
| total_label
| session_label
| time_label
| actual_cps_label
| status.

Inductive dialog : Type :=
| showwarning
| showerror
| askyesno
| askstring.

Inductive keyboard_call : Type :=
| unhook_key (key : string)
| unhook_all
| on_press
| on_press_key (key : string).

(** One entry of the trace of external calls. *)
Inductive effect : Type :=
| MouseDown (button : string)
| MouseUp (button : string)
| Sleep (seconds : float)
| Stdout (msg : string)                       (* print(...) *)
| ThreadStart (target : thread_target)
| Text (w : widget) (text : string)           (* config(text=...) / configure_text *)
| TextInt (w : widget) (n : Z)                (* text=str(n) *)
| TextCps (n : Z)                             (* text=f"{n:.1f}" on actual_cps_label *)
| TextTime (minutes seconds : Z)              (* text=f"{m:02d}:{s:02d}" on time_label *)
| Dialog (d : dialog) (title msg : string)
| Keyboard (c : keyboard_call).

Record app : Type := mkApp {
  is_clicking : bool;
  total_clicks : Z;
  session_clicks : Z;
  hotkey : string;
  current_hotkey : option string;
  start_time : option float;
  actual_cps : Z;
  last_second_clicks : list float;
  is_recording_hotkey : bool;
  out : list effect
}.

Definition NOT_SET : string := "NOT SET"%string.

(** The state built by [__init__]. *)
Definition init : app :=
  {| is_clicking := false;
     total_clicks := 0;
     session_clicks := 0;
     hotkey := NOT_SET;
     current_hotkey := None;
     start_time := None;
     actual_cps := 0;
     last_second_clicks := [];
     is_recording_hotkey := false;
     out := [] |}.

Definition set_is_clicking (v : bool) (a : app) : app :=
  mkApp v (total_clicks a) (session_clicks a) (hotkey a) (current_hotkey a)
        (start_time a) (actual_cps a) (last_second_clicks a)
        (is_recording_hotkey a) (out a).

Definition set_total_clicks (v : Z) (a : app) : app :=
  mkApp (is_clicking a) v (session_clicks a) (hotkey a) (current_hotkey a)
        (start_time a) (actual_cps a) (last_second_clicks a)
        (is_recording_hotkey a) (out a).

Definition set_session_clicks (v : Z) (a : app) : app :=
  mkApp (is_clicking a) (total_clicks a) v (hotkey a) (current_hotkey a)
        (start_time a) (actual_cps a) (last_second_clicks a)
        (is_recording_hotkey a) (out a).

Definition set_hotkey (v : string) (a : app) : app :=
  mkApp (is_clicking a) (total_clicks a) (session_clicks a) v (current_hotkey a)
        (start_time a) (actual_cps a) (last_second_clicks a)
        (is_recording_hotkey a) (out a).

Definition set_current_hotkey (v : option string) (a : app) : app :=
  mkApp (is_clicking a) (total_clicks a) (session_clicks a) (hotkey a) v
        (start_time a) (actual_cps a) (last_second_clicks a)
        (is_recording_hotkey a) (out a).

Definition set_start_time (v : option float) (a : app) : app :=
  mkApp (is_clicking a) (total_clicks a) (session_clicks a) (hotkey a)
        (current_hotkey a) v (actual_cps a) (last_second_clicks a)
        (is_recording_hotkey a) (out a).

Definition set_actual_cps (v : Z) (a : app) : app :=
  mkApp (is_clicking a) (total_clicks a) (session_clicks a) (hotkey a)
        (current_hotkey a) (start_time a) v (last_second_clicks a)
        (is_recording_hotkey a) (out a).

Definition set_last_second_clicks (v : list float) (a : app) : app :=
  mkApp (is_clicking a) (total_clicks a) (session_clicks a) (hotkey a)
        (current_hotkey a) (start_time a) (actual_cps a) v
        (is_recording_hotkey a) (out a).

Definition set_is_recording_hotkey (v : bool) (a : app) : app :=
  mkApp (is_clicking a) (total_clicks a) (session_clicks a) (hotkey a)
        (current_hotkey a) (start_time a) (actual_cps a)
        (last_second_clicks a) v (out a).

Definition set_out (v : list effect) (a : app) : app :=
  mkApp (is_clicking a) (total_clicks a) (session_clicks a) (hotkey a)
        (current_hotkey a) (start_time a) (actual_cps a)
        (last_second_clicks a) (is_recording_hotkey a) v.

(** *** Methods as computations on the object

    A method body either returns a value or raises; what it wrote to the
    object before raising stays written. *)

Inductive result (A : Type) : Type :=
| Return (v : A)
| Raise.
Arguments Return {A} v.
Arguments Raise {A}.

Definition M (A : Type) : Type := app -> result A * app.

Definition ret {A} (v : A) : M A := fun a => (Return v, a).

Definition raise {A} : M A := fun a => (Raise, a).

Definition bind {A B} (m : M A) (k : A -> M B) : M B :=
  fun a =>
    match m a with
    | (Return v, a') => k v a'
    | (Raise, a') => (Raise, a')
    end.

(** [try: m  except Exception: h] *)
Definition try_except {A} (m h : M A) : M A :=
  fun a =>
    match m a with
    | (Return v, a') => (Return v, a')
    | (Raise, a') => h a'
    end.

Definition read {A} (f : app -> A) : M A := fun a => (Return (f a), a).

Definition modify (f : app -> app) : M unit := fun a => (Return tt, f a).

(** An external call whose answer is [Some v], or that raises ([None]). *)
Definition external {A} (answer : option A) : M A :=
  match answer with
  | Some v => ret v
  | None => raise
  end.

Definition emit (e : effect) : M unit :=
  modify (fun a => set_out (out a ++ [e]) a).

(** An external call without a result that succeeds or raises. *)
Definition call (ok : bool) (e : effect) : M unit :=
  if ok then emit e else raise.

Definition exec {A} (m : M A) (a : app) : app := snd (m a).

Declare Scope py_scope.
Delimit Scope py_scope with py.
Notation "x <- m ;; k" := (bind m (fun x => k))
  (at level 61, m at next level, right associativity) : py_scope.
Notation "m ;; k" := (bind m (fun _ => k))
  (at level 61, right associativity) : py_scope.

Local Open Scope py_scope.

(** *** What one iteration of [click_loop] asks of the outside *)

Record click_env : Type := mkClickEnv {
  click_mode_get : option string;   (* self.click_mode.get(); None: the read raises *)
  is_pressed : option bool;         (* keyboard.is_pressed(current_hotkey) *)
  click_type_get : option string;   (* self.click_type.get() *)
  button_type_get : option string;  (* self.button_type.get() *)
  inject_fault : option nat;        (* index of the injection call that raises, if one does *)
  time_time : float;                (* time.time() at line 460 *)
  labels_ok : bool;                 (* the two label updates of lines 465-466 succeed *)
  cps_get : option float            (* float(self.cps.get()) *)
}.

(** Control after one pass through the body of a [while] loop. *)
Inductive flow : Type :=
| Fallthrough      (* reached the end of the body *)
| LoopContinue     (* [continue] *)
| FunctionReturn.  (* [return] *)

(** Outcome of running a loop over finitely many iterations. *)
Inductive loop_status : Type :=
| Exited           (* the loop was left: the test failed or the body returned *)
| Running.         (* all given iterations ran and the thread is still in the loop *)

Section Platform.

(** The optional modules of lines 14-24: [keyboard] and [pyautogui] are
    the imported module ([true]) or [None] ([false]). *)
Variables (keyboard pyautogui : bool).

(** [stop_clicking], lines 422-428. *)
Definition stop_clicking : M unit :=
  modify (set_is_clicking false) ;;
  emit (Text start_btn "START") ;;
  hk <- read hotkey ;;
  emit (Text status ("Stopped - Press " ++ hk ++ " to restart")).

(** Lines 406-413 of [start_clicking]: the hotkey is registered again;
    failures of the hook calls are swallowed and change nothing in the
    object. *)
Definition register_hotkey : M unit :=
  if keyboard then
    emit (Keyboard unhook_all) ;;
    cur <- read current_hotkey ;;
    match truthy cur with
    | Some k => emit (Keyboard (on_press_key k))
    | None => ret tt
    end
  else ret tt.

(** [start_clicking], lines 394-420; [now] is [time.time()]. *)
Definition start_clicking (now : float) : M unit :=
  modify (set_is_clicking true) ;;
  modify (set_start_time (Some now)) ;;
  modify (set_session_clicks 0) ;;
  modify (set_last_second_clicks []) ;;
  emit (Text start_btn "STOP") ;;
  emit (Text hotkey_btn "Set Hotkey") ;;
  register_hotkey ;;
  emit (ThreadStart target_click_loop) ;;
  emit (ThreadStart target_monitor_cps) ;;
  emit (ThreadStart target_update_timer) ;;
  hk <- read hotkey ;;
  emit (Text status ("Active - Press " ++ hk ++ " to stop")).

(** [toggle_clicking], lines 386-392. *)
Definition toggle_clicking (now : float) : M unit :=
  hk <- read hotkey ;;
  if String.eqb hk NOT_SET then ret tt
  else
    c <- read is_clicking ;;
    if negb c then start_clicking now else stop_clicking.

(** Lines 434-440: in hold mode the iteration idles while the hotkey is
    not held.  Returns [true] when the iteration ends in [continue]. *)
Definition hold_check (env : click_env) : M bool :=
  mode <- external (click_mode_get env) ;;
  if (String.eqb mode "hold" && keyboard)%bool then
    try_except
      (pressed <- external (is_pressed env) ;;
       if negb pressed then emit (Sleep lit_0_001) ;; ret true
       else ret false)
      (ret false)
  else ret false.

(** Injection call number [i] of the iteration ([pyautogui.mouseDown] or
    [pyautogui.mouseUp] with [button=self.button_type.get()]). *)
Definition mouse_call (env : click_env) (i : nat) (e : string -> effect) : M unit :=
  if pyautogui then
    b <- external (button_type_get env) ;;
    match inject_fault env with
    | Some k => if Nat.eqb k i then raise else emit (e b)
    | None => emit (e b)
    end
  else raise.

(** Lines 447-451. *)
Definition perform_clicks (env : click_env) (clicks : Z) : M unit :=
  mouse_call env 0 MouseDown ;;
  mouse_call env 1 MouseUp ;;
  if clicks =? 2 then
    mouse_call env 2 MouseDown ;;
    mouse_call env 3 MouseUp
  else ret tt.

(** Lines 463-468. *)
Definition update_labels (env : click_env) : M unit :=
  s <- read session_clicks ;;
  if s mod 10 =? 0 then
    try_except
      (t <- read total_clicks ;;
       call (labels_ok env) (TextInt total_label t) ;;
       call (labels_ok env) (TextInt session_label s))
      (ret tt)
  else ret tt.

(** Line 470: [max(0.002, 1.0 / max(0.1, r))]. *)
Definition interval (r : float) : option float :=
  match truediv lit_1_0 (max lit_0_1 r) with
  | Some q => Some (max lit_0_002 q)
  | None => None
  end.

(** Line 442: [2 if self.click_type.get() == "double" else 1]. *)
Definition click_count (ct : string) : Z :=
  if String.eqb ct "double" then 2 else 1.

(** The body of the [while] of [click_loop], lines 432-474. *)
Definition click_body (env : click_env) : M flow :=
  try_except
    (idle <- hold_check env ;;
     if idle then ret LoopContinue
     else
       ct <- external (click_type_get env) ;;
       let clicks := click_count ct in
       injected <- try_except
                     (perform_clicks env clicks ;; ret true)
                     (emit (Stdout "pyautogui.click failed; stopping clicking") ;;
                      stop_clicking ;;
                      ret false) ;;
       if negb injected then ret FunctionReturn
       else
         modify (fun a => set_total_clicks (total_clicks a + clicks) a) ;;
         modify (fun a => set_session_clicks (session_clicks a + clicks) a) ;;
         modify (fun a => set_last_second_clicks
                            (last_second_clicks a ++ [time_time env]) a) ;;
         update_labels env ;;
         r <- external (cps_get env) ;;
         i <- external (interval r) ;;
         emit (Sleep i) ;;
         ret Fallthrough)
    (emit (Stdout "Click error:") ;;
     emit (Sleep lit_0_01) ;;
     ret Fallthrough).

(** [while self.is_clicking: body], over the iterations whose arguments are
    given: the shape of the three worker loops. *)
Fixpoint while_loop {X} (body : X -> M flow) (xs : list X) : M loop_status :=
  match xs with
  | [] => ret Running
  | x :: rest =>
      c <- read is_clicking ;;
      if c then
        f <- body x ;;
        match f with
        | FunctionReturn => ret Exited
        | Fallthrough | LoopContinue => while_loop body rest
        end
      else ret Exited
  end.

(** [click_loop], lines 430-474. *)
Definition click_loop (envs : list click_env) : M loop_status :=
  while_loop click_body envs.

(** The test of line 480: [now - t <= 1.0]. *)
Definition within_last_second (now t : float) : bool :=
  leb (sub now t) lit_1_0.

(** The body of the [while] of [monitor_cps], lines 478-488; [now] is
    [time.time()] and [label_ok] tells whether the label update
    succeeds. *)
Definition monitor_body (now : float) (label_ok : bool) : M flow :=
  try_except
    (modify (fun a => set_last_second_clicks
                        (filter (within_last_second now) (last_second_clicks a)) a) ;;
     modify (fun a => set_actual_cps (Z.of_nat (List.length (last_second_clicks a))) a) ;;
     try_except
       (n <- read actual_cps ;; call label_ok (TextCps n))
       (ret tt) ;;
     emit (Sleep lit_0_1) ;;
     ret Fallthrough)
    (emit (Sleep lit_0_1) ;;
     ret Fallthrough).

(** The body of the [while] of [update_timer], lines 492-499. *)
Definition timer_body (now : float) (label_ok : bool) : M flow :=
  try_except
    (st <- read start_time ;;
     t0 <- external st ;;
     elapsed <- external (to_int (sub now t0)) ;;
     call label_ok (TextTime (elapsed / 60) (elapsed mod 60)) ;;
     emit (Sleep (of_int 1)) ;;
     ret Fallthrough)
    (emit (Sleep (of_int 1)) ;;
     ret Fallthrough).

(** [monitor_cps], lines 476-488, and [update_timer], lines 490-499. *)
Definition monitor_cps (ticks : list (float * bool)) : M loop_status :=
  while_loop (fun x => monitor_body (fst x) (snd x)) ticks.

Definition update_timer (ticks : list (float * bool)) : M loop_status :=
  while_loop (fun x => timer_body (fst x) (snd x)) ticks.

(** [reset_stats], lines 501-517; [answer] is what the user answers to
    the confirmation dialog. *)
Definition reset_stats (answer labels_fine : bool) : M unit :=
  c <- read is_clicking ;;
  if c then emit (Dialog showwarning "Warning" "Stop clicking first")
  else
    emit (Dialog askyesno "Confirm" "Reset all statistics?") ;;
    if answer then
      modify (set_total_clicks 0) ;;
      modify (set_session_clicks 0) ;;
      modify (set_last_second_clicks []) ;;
      modify (set_actual_cps 0) ;;
      try_except
        (call labels_fine (Text total_label "0") ;;
         call labels_fine (Text session_label "0") ;;
         call labels_fine (Text time_label "00:00") ;;
         call labels_fine (Text actual_cps_label "0.0"))
        (ret tt) ;;
      emit (Text status "Statistics reset")
    else ret tt.

(** [start_recording_hotkey], lines 297-356.  [answer] is what the
    fallback dialog returns and [hook_ok] whether [keyboard.on_press]
    succeeds. *)
Definition start_recording_hotkey (answer : option string) (hook_ok : bool) : M unit :=
  c <- read is_clicking ;;
  if c then emit (Dialog showwarning "Warning" "Stop clicking first")
  else
    modify (set_is_recording_hotkey true) ;;
    emit (Text hotkey_btn "Press a key...") ;;
    emit (Text status "Waiting for key press...") ;;
    cur <- read current_hotkey ;;
    match truthy cur with
    | Some k => if keyboard then emit (Keyboard (unhook_key k)) else ret tt
    | None => ret tt
    end ;;
    if negb keyboard then
      emit (Dialog askstring "Hotkey" "Enter hotkey (e.g. F6, a, ctrl+shift+x):") ;;
      match truthy answer with
      | Some k =>
          modify (set_hotkey (upper k)) ;;
          modify (set_current_hotkey (Some (lower k))) ;;
          emit (Text hotkey_btn "Set Hotkey") ;;
          emit (Text status ("Ready - Press " ++ upper k ++ " to start"))
      | None => ret tt
      end ;;
      modify (set_is_recording_hotkey false)
    else
      try_except
        (call hook_ok (Keyboard on_press))
        (emit (Dialog showerror "Error" "Unable to record hotkey") ;;
         modify (set_is_recording_hotkey false) ;;
         emit (Text hotkey_btn "Set Hotkey") ;;
         emit (Text status EmptyString)).

(** The callback [_on_press] of lines 327-348; [name] is
    [getattr(event, "name", None)]. *)
Definition _on_press (name : option string) : M unit :=
  recording <- read is_recording_hotkey ;;
  if negb recording then ret tt
  else
    match truthy name with
    | None => ret tt
    | Some n =>
        emit (Keyboard unhook_all) ;;
        modify (set_is_recording_hotkey false) ;;
        modify (set_hotkey (upper n)) ;;
        modify (set_current_hotkey (Some (lower n))) ;;
        emit (Keyboard (on_press_key (lower n))) ;;
        emit (Text hotkey_btn "Set Hotkey") ;;
        emit (Text status ("Ready - Press " ++ upper n ++ " to start"))
    end.

(** [on_closing], lines 519-529; [answer] is what the user answers to the
    exit dialog, and the result tells whether [self.root.destroy()] was
    reached. *)
Definition on_closing (answer : bool) : M bool :=
  c <- read is_clicking ;;
  stay <- (if c then
             emit (Dialog askyesno "Exit" "Clicking is active. Exit anyway?") ;;
             ret (negb answer)
           else ret false) ;;
  if stay then ret false
  else
    modify (set_is_clicking false) ;;
    (if keyboard then emit (Keyboard unhook_all) else ret tt) ;;
    ret true.

(** *** The interleaved system

    One step is one command of the presentation layer, one callback of
    the keyboard hook, or one pass of one worker through its [while]
    (test and body). *)

Inductive op : Type :=
| StartRecordingHotkey (answer : option string) (hook_ok : bool)
| OnPress (name : option string)
| ToggleClicking (now : float)
| ClickLoopIteration (env : click_env)
| MonitorCpsIteration (now : float) (label_ok : bool)
| UpdateTimerIteration (now : float) (label_ok : bool)
| ResetStats (answer labels_fine : bool).

(** [while self.is_clicking: body] for one pass. *)
Definition while_is_clicking (body : M flow) : M unit :=
  c <- read is_clicking ;;
  if c then body ;; ret tt else ret tt.

Definition step (o : op) (a : app) : app :=
  match o with
  | StartRecordingHotkey answer hook_ok => exec (start_recording_hotkey answer hook_ok) a
  | OnPress name => exec (_on_press name) a
  | ToggleClicking now => exec (toggle_clicking now) a
  | ClickLoopIteration env => exec (while_is_clicking (click_body env)) a
  | MonitorCpsIteration now label_ok => exec (while_is_clicking (monitor_body now label_ok)) a
  | UpdateTimerIteration now label_ok => exec (while_is_clicking (timer_body now label_ok)) a
  | ResetStats answer labels_fine => exec (reset_stats answer labels_fine) a
  end.

Definition run (ops : list op) (a : app) : app :=
  fold_left (fun acc o => step o acc) ops a.

(** *** Interleaving below a whole pass

    The pass of [click_loop] cut between lines 458 and 459, and
    [reset_stats] cut at its modal dialog. *)

(** Lines 432-458 of a pass: up to and including
    [self.total_clicks += clicks].  The result is the flow when the pass
    ended before line 458, and the click count when the thread stands between
    lines 458 and 459. *)
Definition click_body_to_458 (env : click_env) : M (flow + Z) :=
  try_except
    (idle <- hold_check env ;;
     if idle then ret (inl LoopContinue)
     else
       ct <- external (click_type_get env) ;;
       let clicks := click_count ct in
       injected <- try_except
                     (perform_clicks env clicks ;; ret true)
                     (emit (Stdout "pyautogui.click failed; stopping clicking") ;;
                      stop_clicking ;;
                      ret false) ;;
       if negb injected then ret (inl FunctionReturn)
       else
         modify (fun a => set_total_clicks (total_clicks a + clicks) a) ;;
         ret (inr clicks))
    (emit (Stdout "Click error:") ;;
     emit (Sleep lit_0_01) ;;
     ret (inl Fallthrough)).

(** Lines 459-474 of the pass, for a thread that stands between lines 458
    and 459 with [clicks]. *)
Definition click_body_from_459 (env : click_env) (clicks : Z) : M flow :=
  try_except
    (modify (fun a => set_session_clicks (session_clicks a + clicks) a) ;;
     modify (fun a => set_last_second_clicks
                        (last_second_clicks a ++ [time_time env]) a) ;;
     update_labels env ;;
     r <- external (cps_get env) ;;
     i <- external (interval r) ;;
     emit (Sleep i) ;;
     ret Fallthrough)
    (emit (Stdout "Click error:") ;;
     emit (Sleep lit_0_01) ;;
     ret Fallthrough).

(** Lines 502-505 of [reset_stats]: the test of the activity flag and the
    dialog; the result tells whether the dialog was opened. *)
Definition reset_ask : M bool :=
  c <- read is_clicking ;;
  if c then emit (Dialog showwarning "Warning" "Stop clicking first") ;; ret false
  else emit (Dialog askyesno "Confirm" "Reset all statistics?") ;; ret true.

(** Lines 505-517 of [reset_stats], once the dialog is answered. *)
Definition reset_answer (answer labels_fine : bool) : M unit :=
  if answer then
    modify (set_total_clicks 0) ;;
    modify (set_session_clicks 0) ;;
    modify (set_last_second_clicks []) ;;
    modify (set_actual_cps 0) ;;
    try_except
      (call labels_fine (Text total_label "0") ;;
       call labels_fine (Text session_label "0") ;;
       call labels_fine (Text time_label "00:00") ;;
       call labels_fine (Text actual_cps_label "0.0"))
      (ret tt) ;;
    emit (Text status "Statistics reset")
  else ret tt.

(** The object, the click threads that stand between lines 458 and 459
    (each with the environment of its pass and its click count), and whether
    the confirmation dialog of [reset_stats] is open. *)
Record fine_state : Type := mkFine {
  shared : app;
  in_flight : list (click_env * Z);
  dialog_open : bool
}.


Inductive fine_op : Type :=
| Whole (o : op)                     (* a command or a whole pass, at once *)
| ClickTo458 (env : click_env)       (* a click thread: the test and lines 432-458 *)
| ClickFrom459 (i : nat)             (* the in-flight thread number [i]: lines 459-474 *)
| ResetAsk                           (* [reset_stats], lines 502-505 *)
| ResetAnswer (answer labels_fine : bool).  (* the dialog answered, lines 505-517 *)

(** The list without its element number [i]. *)
Fixpoint remove_nth {X} (i : nat) (l : list X) : list X :=
  match l, i with
  | [], _ => []
  | _ :: rest, O => rest
  | x :: rest, S j => x :: remove_nth j rest
  end.

Definition fine_step (o : fine_op) (st : fine_state) : fine_state :=
  match o with
  | Whole o' =>
      mkFine (step o' (shared st)) (in_flight st) (dialog_open st)
  | ClickTo458 env =>
      if is_clicking (shared st) then
        match click_body_to_458 env (shared st) with
        | (Return (inr clicks), a') =>
            mkFine a' ((env, clicks) :: in_flight st) (dialog_open st)
        | (_, a') => mkFine a' (in_flight st) (dialog_open st)
        end
      else st
  | ClickFrom459 i =>
      match nth_error (in_flight st) i with
      | Some (env, clicks) =>
          mkFine (exec (click_body_from_459 env clicks) (shared st))
                 (remove_nth i (in_flight st)) (dialog_open st)
      | None => st
      end
  | ResetAsk =>
      match reset_ask (shared st) with
      | (Return true, a') => mkFine a' (in_flight st) true
      | (_, a') => mkFine a' (in_flight st) (dialog_open st)
      end
  | ResetAnswer answer labels_fine =>
      if dialog_open st then
        mkFine (exec (reset_answer answer labels_fine) (shared st))
               (in_flight st) false
      else st
  end.


End Platform.

(** *** The throttle of the resize handler

    [_on_root_resize_throttled], lines 534-543: the callback keeps the clock
    reading of the last call it let through in [last["t"]], initially 0. *)

Definition last_init : float := S754_zero false.

(** One call of [cb] at clock reading [now]: the new [last["t"]] and whether
    [_on_root_resize] was called. *)
Definition cb (now last : float) : float * bool :=
  if ltb (sub now last) lit_0_06 then (last, false) else (now, true).

(** The clock readings of the calls that were let through, and the final
    [last["t"]], over the calls at [nows]. *)
Fixpoint cb_run (nows : list float) (last : float) : list float * float :=
  match nows with
  | [] => ([], last)
  | now :: rest =>
      let (last', called) := cb now last in
      let (through, final) := cb_run rest last' in
      (if called then now :: through else through, final)
  end.

End McAllenClicker.

Import PyFloat McAllenClicker.

(** ** Vocabulary of the statements *)

(** The iteration of [click_loop] idles at line 437 and ends in [continue]:
    hold mode, the keyboard module is there and the hotkey is not held. *)
Definition holds_idle (keyboard : bool) (env : click_env) : bool :=
  match click_mode_get env, is_pressed env with
  | Some mode, Some false => String.eqb mode "hold" && keyboard
  | _, _ => false
  end.

(** One of the injection calls of lines 447-451 raises: the module is
    missing, the button cannot be read, or a call that is made fails. *)
Definition injection_raises (pyautogui : bool) (env : click_env) (clicks : Z) : bool :=
  negb pyautogui
  || match button_type_get env with Some _ => false | None => true end
  || match inject_fault env with
     | Some k => Nat.ltb k (if clicks =? 2 then 4 else 2)
     | None => false
     end.

Definition is_mouse (e : effect) : bool :=
  match e with
  | MouseDown _ | MouseUp _ => true
  | _ => false
  end.

(** The injection calls of a trace, in order. *)
Definition mouse_events (l : list effect) : list effect := filter is_mouse l.

(** [n] press+release pairs of button [b]. *)
Fixpoint pairs (b : string) (n : nat) : list effect :=
  match n with
  | O => []
  | S k => MouseDown b :: MouseUp b :: pairs b k
  end.

(** The same iteration with another answer of [keyboard.is_pressed]. *)
Definition with_is_pressed (p : option bool) (env : click_env) : click_env :=
  {| click_mode_get := click_mode_get env;
     is_pressed := p;
     click_type_get := click_type_get env;
     button_type_get := button_type_get env;
     inject_fault := inject_fault env;
     time_time := time_time env;
     labels_ok := labels_ok env;
     cps_get := cps_get env |}.

(** The iteration is left through the handler of lines 472-474 before
    anything is injected: the mode or, past the hold check, the click type
    cannot be read. *)
Definition read_fails (keyboard : bool) (env : click_env) : bool :=
  match click_mode_get env, click_type_get env with
  | None, _ => true
  | Some _, None => negb (holds_idle keyboard env)
  | Some _, Some _ => false
  end.

(** The iteration reaches the injection and an injection call raises. *)
Definition pass_fails (keyboard pyautogui : bool) (env : click_env) : bool :=
  match click_mode_get env, click_type_get env with
  | Some _, Some ct =>
      negb (holds_idle keyboard env)
      && injection_raises pyautogui env (click_count ct)
  | _, _ => false
  end.

(** The iteration reaches the injection and every injection call goes
    through. *)
Definition pass_injects (keyboard pyautogui : bool) (env : click_env) : bool :=
  match click_mode_get env, click_type_get env with
  | Some _, Some ct =>
      negb (holds_idle keyboard env)
      && negb (injection_raises pyautogui env (click_count ct))
  | _, _ => false
  end.

(** The click count of the iteration (0 when the click type cannot be
    read). *)
Definition clicks_of (env : click_env) : Z :=
  match click_type_get env with
  | Some ct => click_count ct
  | None => 0
  end.

Definition sum_clicks (envs : list click_env) : Z :=
  fold_right (fun env acc => clicks_of env + acc) 0 envs.

(** The four injection calls of a double click, in the order of lines
    447-451. *)
Definition injection_calls (b : string) : list effect :=
  [MouseDown b; MouseUp b; MouseDown b; MouseUp b].

(** What a pass of the click loop adds to the trace after the injection,
    with the counters at [t] and [s]: the occasional label update of lines
    463-468, then the sleep of lines 470-471, or the report and the short
    sleep of lines 473-474 when the rate cannot be read. *)
Definition after_injection (env : click_env) (t s : Z) : list effect :=
  (if (s mod 10 =? 0) && labels_ok env then [TextInt total_label t; TextInt session_label s]
   else [])
  ++ match cps_get env with
     | Some r => [Sleep (max lit_0_002 (SFdiv prec emax lit_1_0 (max lit_0_1 r)))]
     | None => [Stdout "Click error:"; Sleep lit_0_01]
     end.

(** *** Relations between the state before and after a computation *)

(** A relation on states that computations can be checked against piecewise:
    a preorder that ignores the trace of external calls. *)
Class Frame (R : app -> app -> Prop) : Prop := {
  frame_refl : forall a, R a a;
  frame_trans : forall a b c, R a b -> R b c -> R a c;
  frame_out : forall a l, R a (set_out l a)
}.

(** Whatever [m] returns or raises, the state it leaves is related to the
    state it started from. *)
Definition respects (R : app -> app -> Prop) {A} (m : M A) : Prop :=
  forall a, R a (snd (m a)).

(** The session count advanced, and the total count advanced at least as
    much. *)
Definition counters_advance (a a' : app) : Prop :=
  0 <= session_clicks a' - session_clicks a <= total_clicks a' - total_clicks a.


(** Both counters advanced by the same amount. *)
Definition counters_together (a a' : app) : Prop :=
  total_clicks a' - total_clicks a = session_clicks a' - session_clicks a.

(** The hotkey shown and the key registered are as before. *)
Definition keeps_hotkey (a a' : app) : Prop :=
  hotkey a' = hotkey a /\ current_hotkey a' = current_hotkey a.

(** The key registered is not empty and lower case, and the hotkey shown is
    its upper case; without a registered key the hotkey shown is the
    sentinel. *)
Definition hotkey_matches (a : app) : Prop :=
  match current_hotkey a with
  | Some c => c <> EmptyString /\ lower c = c /\ upper c = hotkey a
  | None => hotkey a = NOT_SET
  end.

(** A start time once set stays set, and the activity flag is not raised. *)
Definition keeps_start (a a' : app) : Prop :=
  (start_time a <> None -> start_time a' <> None) /\
  (is_clicking a' = true -> is_clicking a = true).

(** The statistics and the session fields are as before: only the trace of
    external calls may differ. *)
Definition same_statistics (a a' : app) : Prop :=
  is_clicking a' = is_clicking a /\
  total_clicks a' = total_clicks a /\
  session_clicks a' = session_clicks a /\
  last_second_clicks a' = last_second_clicks a /\
  actual_cps a' = actual_cps a /\
  start_time a' = start_time a.

(** Consecutive clock readings of [l], starting after [prev], are not less
    than 0.06 apart: [t - prev < 0.06] is false. *)
Fixpoint spaced (prev : float) (l : list float) : Prop :=
  match l with
  | [] => True
  | t :: rest => ltb (sub t prev) lit_0_06 = false /\ spaced t rest
  end.

(** What the reporter leaves of a window after the prunes at [nows]. *)
Definition pruned (nows : list float) (w : list float) : list float :=
  fold_left (fun acc now => filter (within_last_second now) acc) nows w.

(** The pass of [update_timer] at clock reading [now] cannot publish: there
    is no start time, the elapsed time is infinite or NaN, or the label
    update raises. *)
Definition timer_fails (now : float) (label_ok : bool) (a : app) : bool :=
  match start_time a with
  | Some t0 =>
      match to_int (sub now t0) with
      | Some _ => negb label_ok
      | None => true
      end
  | None => true
  end.

Definition is_thread_start (e : effect) : bool :=
  match e with
  | ThreadStart _ => true
  | _ => false
  end.

(** The threads started along a trace, in order. *)
Definition thread_starts (l : list effect) : list effect :=
  filter is_thread_start l.

(** The three workers of lines 416-419. *)
Definition workers : list effect :=
  [ ThreadStart target_click_loop;
    ThreadStart target_monitor_cps;
    ThreadStart target_update_timer ].

(** The steps that neither start a session nor reset the statistics. *)
Definition in_session (o : op) : bool :=
  match o with
  | ToggleClicking _ | ResetStats _ _ => false
  | _ => true
  end.

(** The sleeps of a trace, in order. *)
Definition slept (l : list effect) : list float :=
  flat_map (fun e => match e with Sleep s => [s] | _ => [] end) l.

(** The calls to the keyboard module along a trace, in order. *)
Definition keyboard_calls (l : list effect) : list keyboard_call :=
  flat_map (fun e => match e with Keyboard c => [c] | _ => [] end) l.




(** Both counters are as before. *)
Definition counters_fixed (a a' : app) : Prop :=
  total_clicks a' = total_clicks a /\ session_clicks a' = session_clicks a.


(** An idle object is left idle. *)
Definition stays_idle (a a' : app) : Prop :=
  is_clicking a = false -> is_clicking a' = false.

(** *** Concrete runs *)

(** One pass of [click_loop] at clock reading [now]: toggle mode, left
    button, [ct] clicks, one click per second, everything succeeds. *)
Definition plain_click (ct : string) (now : float) : click_env :=
  {| click_mode_get := Some "toggle"%string;
     is_pressed := None;
     click_type_get := Some ct;
     button_type_get := Some "left"%string;
     inject_fault := None;
     time_time := now;
     labels_ok := true;
     cps_get := Some (of_int 1) |}.

(** A double click whose second press raises. *)
Definition faulty_click (now : float) : click_env :=
  {| click_mode_get := Some "toggle"%string;
     is_pressed := None;
     click_type_get := Some "double"%string;
     button_type_get := Some "left"%string;
     inject_fault := Some 2%nat;
     time_time := now;
     labels_ok := true;
     cps_get := Some (of_int 1) |}.

(** A pass in hold mode while the hotkey is not held. *)
Definition unheld_click (now : float) : click_env :=
  {| click_mode_get := Some "hold"%string;
     is_pressed := Some false;
     click_type_get := Some "single"%string;
     button_type_get := Some "left"%string;
     inject_fault := None;
     time_time := now;
     labels_ok := true;
     cps_get := Some (of_int 10) |}.

(** A pass in which the click type cannot be read. *)
Definition unreadable_click (now : float) : click_env :=
  {| click_mode_get := Some "toggle"%string;
     is_pressed := None;
     click_type_get := None;
     button_type_get := Some "left"%string;
     inject_fault := None;
     time_time := now;
     labels_ok := true;
     cps_get := Some (of_int 10) |}.

(** Without the keyboard module: the hotkey F6 is entered in the dialog and
    the session is started at clock reading 1000.0. *)
Definition started : list op :=
  [ StartRecordingHotkey (Some "f6"%string) true;
    ToggleClicking (of_int 1000) ].

(** ... one click at 1000.0, then the reporter wakes every 0.125 s, the last
    time at 1001.0. *)
Definition pruned_at_1001 : list op :=
  started
  ++ [ ClickLoopIteration (plain_click "single" (of_int 1000)) ]
  ++ map (fun k => MonitorCpsIteration (of_dyadic (8000 + k) (-3)) true)
         [1; 2; 3; 4; 5; 6; 7; 8].

(** 1001.0625: after the prune at 1001.0 and before the next one. *)
Definition instant_1001_0625 : float := of_dyadic 16017 (-4).

(** ... one click, then the session is stopped at 1002.0. *)
Definition clicked_and_stopped : list op :=
  started
  ++ [ ClickLoopIteration (plain_click "single" (of_int 1000));
       ToggleClicking (of_int 1002) ].

(** ... a double click at 1000.0, then a pass of the reporter at 1000.125. *)
Definition double_then_pruned : list op :=
  started
  ++ [ ClickLoopIteration (plain_click "double" (of_int 1000));
       MonitorCpsIteration (of_dyadic 8001 (-3)) true ].




(** With the keyboard module: F6 is recorded, a second recording is begun
    and the session is started while it waits for a key. *)
Definition started_while_recording : list op :=
  [ StartRecordingHotkey None true;
    OnPress (Some "f6"%string);
    StartRecordingHotkey None true;
    ToggleClicking (of_int 1000) ].

(** With the keyboard module: F6 is recorded from a key press. *)
Definition key_f6_recorded : list op :=
  [ StartRecordingHotkey None true;
    OnPress (Some "f6"%string) ].

(** ... a double and a single click, then the session is stopped. *)
Definition three_clicks_stopped : list op :=
  started
  ++ [ ClickLoopIteration (plain_click "double" (of_int 1000));
       ClickLoopIteration (plain_click "single" (of_int 1001));
       ToggleClicking (of_int 1002) ].

(** ** Floats *)

Example lit_0_002_is_nearest :
  SFdiv prec emax (of_int 2) (of_int 1000) = lit_0_002.
Proof. vm_compute. reflexivity. Qed.

Example lit_0_1_is_nearest :
  SFdiv prec emax (of_int 1) (of_int 10) = lit_0_1.
Proof. vm_compute. reflexivity. Qed.

Example lit_1_0_is_one : of_int 1 = lit_1_0.
Proof. vm_compute. reflexivity. Qed.

Lemma ltb_leb (x y : float) : ltb x y = true -> leb x y = true.
Proof.
  unfold ltb, leb, SFltb, SFleb.
  destruct (SFcompare x y) as [[ | | ] | ]; congruence.
Qed.

Lemma max_cases (a b : float) :
  (ltb a b = true /\ max a b = b) \/ (ltb a b = false /\ max a b = a).
Proof. unfold max. destruct (ltb a b); auto. Qed.

Lemma max_lower_bound (a b : float) : leb a a = true -> leb a (max a b) = true.
Proof.
  intros Ha. destruct (max_cases a b) as [[H ->] | [_ ->]]; auto using ltb_leb.
Qed.

Lemma above_tenth_not_zero (r : float) : ltb lit_0_1 r = true -> is_zero r = false.
Proof. destruct r; simpl; trivial. destruct s; discriminate. Qed.

Lemma clamped_rate_not_zero (r : float) : is_zero (max lit_0_1 r) = false.
Proof.
  destruct (max_cases lit_0_1 r) as [[H ->] | [_ ->]].
  - now apply above_tenth_not_zero.
  - reflexivity.
Qed.

(** The interval at 10 clicks per second is 0.1 s; a rate below the clamp,
    zero or NaN gives 1.0 / 0.1 = 10.0 s; an infinite rate gives the floor. *)
Example interval_at_10 : interval (of_int 10) = Some lit_0_1.
Proof. vm_compute. reflexivity. Qed.

Example interval_at_zero : interval (S754_zero false) = Some (of_int 10).
Proof. vm_compute. reflexivity. Qed.

Example interval_at_nan : interval S754_nan = Some (of_int 10).
Proof. vm_compute. reflexivity. Qed.

Example interval_at_infinity : interval (S754_infinity false) = Some lit_0_002.
Proof. vm_compute. reflexivity. Qed.

(** The division of line 470 does not raise. *)
Lemma interval_total (r : float) :
  interval r = Some (max lit_0_002 (SFdiv prec emax lit_1_0 (max lit_0_1 r))).
Proof. unfold interval, truediv. now rewrite clamped_rate_not_zero. Qed.

(** ** Checking a computation against a relation, piece by piece *)

Section Respects.

Context (R : app -> app -> Prop) `{Frame R}.

Lemma respects_ret {A} (v : A) : respects R (ret v).
Proof. intros a. apply frame_refl. Qed.

Lemma respects_raise {A} : respects R (@raise A).
Proof. intros a. apply frame_refl. Qed.

Lemma respects_read {A} (f : app -> A) : respects R (read f).
Proof. intros a. apply frame_refl. Qed.

Lemma respects_external {A} (x : option A) : respects R (external x).
Proof. destruct x; [ apply respects_ret | apply respects_raise ]. Qed.

Lemma respects_bind {A B} (m : M A) (k : A -> M B) :
  respects R m -> (forall v, respects R (k v)) -> respects R (bind m k).
Proof.
  intros Hm Hk a. unfold bind. specialize (Hm a).
  destruct (m a) as [[v | ] a']; simpl in *; [ | exact Hm ].
  eapply frame_trans; [ exact Hm | apply Hk ].
Qed.

Lemma respects_try_except {A} (m h : M A) :
  respects R m -> respects R h -> respects R (try_except m h).
Proof.
  intros Hm Hh a. unfold try_except. specialize (Hm a).
  destruct (m a) as [[v | ] a']; simpl in *; [ exact Hm | ].
  eapply frame_trans; [ exact Hm | apply Hh ].
Qed.

Lemma respects_modify (f : app -> app) :
  (forall a, R a (f a)) -> respects R (modify f).
Proof. intros Hf a. apply Hf. Qed.

(** Two writes that are related to the start only together. *)
Lemma respects_modify2 {B} (f g : app -> app) (k : M B) :
  (forall a, R a (g (f a))) -> respects R k ->
  respects R (bind (modify f) (fun _ => bind (modify g) (fun _ => k))).
Proof.
  intros Hfg Hk a. unfold bind, modify. simpl.
  eapply frame_trans; [ apply Hfg | apply Hk ].
Qed.

Lemma respects_emit (e : effect) : respects R (emit e).
Proof. intros a. apply frame_out. Qed.

Lemma respects_call (ok : bool) (e : effect) : respects R (call ok e).
Proof. destruct ok; [ apply respects_emit | apply respects_raise ]. Qed.

Lemma respects_while (body : M flow) :
  respects R body -> respects R (while_is_clicking body).
Proof.
  intros Hb. unfold while_is_clicking.
  apply respects_bind; [ apply respects_read | intros c ].
  destruct c; [ | apply respects_ret ].
  apply respects_bind; [ exact Hb | intros _; apply respects_ret ].
Qed.

End Respects.

(** One syntax-directed step; what is left are the writes to the object. *)
Ltac respects_step :=
  lazymatch goal with
  | |- Frame _ => exact _
  | |- respects _ (ret _) => apply respects_ret
  | |- respects _ raise => apply respects_raise
  | |- respects _ (read _) => apply respects_read
  | |- respects _ (external _) => apply respects_external
  | |- respects _ (emit _) => apply respects_emit
  | |- respects _ (call _ _) => apply respects_call
  | |- respects _ (try_except _ _) => apply respects_try_except
  | |- respects _ (while_is_clicking _) => apply respects_while
  | |- respects _ (bind (modify _) (fun _ => bind (modify _) _)) =>
      apply respects_modify2
  | |- respects _ (bind _ _) => apply respects_bind; [ .. | intros ? ]
  | |- respects _ (modify _) => apply respects_modify
  | |- respects _ (if ?b then _ else _) => destruct b
  | |- respects _ (match ?x with _ => _ end) => destruct x
  end.

#[export] Instance counters_advance_frame : Frame counters_advance.
Proof. split; unfold counters_advance; simpl; intros; lia. Qed.

Lemma click_count_cases (ct : string) : click_count ct = 1 \/ click_count ct = 2.
Proof. unfold click_count. destruct (String.eqb ct "double"); auto. Qed.

Ltac counters_writes :=
  intros ?; unfold counters_advance; simpl;
  try match goal with
      | |- context [click_count ?c] => destruct (click_count_cases c) as [-> | ->]
      end;
  lia.

Lemma click_body_counters kb pa env :
  respects counters_advance (click_body kb pa env).
Proof.
  unfold click_body, hold_check, perform_clicks, mouse_call, update_labels,
    stop_clicking.
  repeat respects_step; counters_writes.
Qed.

Lemma monitor_body_counters now ok : respects counters_advance (monitor_body now ok).
Proof. unfold monitor_body. repeat respects_step; counters_writes. Qed.

Lemma timer_body_counters now ok : respects counters_advance (timer_body now ok).
Proof. unfold timer_body. repeat respects_step; counters_writes. Qed.

Lemma stop_clicking_counters : respects counters_advance stop_clicking.
Proof. unfold stop_clicking. repeat respects_step; counters_writes. Qed.

Lemma start_recording_hotkey_counters kb answer ok :
  respects counters_advance (start_recording_hotkey kb answer ok).
Proof. unfold start_recording_hotkey. repeat respects_step; counters_writes. Qed.

Lemma on_press_counters name : respects counters_advance (_on_press name).
Proof. unfold _on_press. repeat respects_step; counters_writes. Qed.

(** ** The observed-rate reporter *)

Lemma monitor_body_state now ok a :
  monitor_body now ok a =
    (Return Fallthrough,
     let kept := filter (within_last_second now) (last_second_clicks a) in
     let n := Z.of_nat (List.length kept) in
     set_out (out a ++ (if ok then [TextCps n] else []) ++ [Sleep lit_0_1])
       (set_actual_cps n (set_last_second_clicks kept a))).
Proof.
  destruct a, ok; unfold monitor_body, try_except, bind, modify, read, call,
    emit, ret, raise, set_out, set_actual_cps, set_last_second_clicks; simpl;
    rewrite <- ?app_assoc; reflexivity.
Qed.

(** What the prune keeps is what was there and passes the test of line 480. *)
Lemma pruned_window_members now ok a t :
  In t (last_second_clicks (exec (monitor_body now ok) a)) <->
  In t (last_second_clicks a) /\ leb (sub now t) lit_1_0 = true.
Proof.
  unfold exec. rewrite monitor_body_state. simpl.
  rewrite filter_In. unfold within_last_second. reflexivity.
Qed.

(** C2, as amended. Immediately after the prune of an iteration of the
    observed-rate reporter at clock reading [now], every timestamp [t] of the
    window satisfies [now - t <= 1.0]. *)
Theorem window_fresh_after_prune (now : float) (label_ok : bool) (a : app) :
  Forall (fun t => within_last_second now t = true)
         (last_second_clicks (exec (monitor_body now label_ok) a)).
Proof.
  apply Forall_forall. intros t Ht.
  apply pruned_window_members in Ht. exact (proj2 Ht).
Qed.

(** C2 as stated fails: the session is active, the reporter pruned at
    1001.0, and at the later instant 1001.0625, before the next prune, the
    window still holds the timestamp 1000.0, which is older than one
    second. *)
Lemma window_stale_between_prunes :
  let a := run false true pruned_at_1001 init in
  is_clicking a = true /\
  last_second_clicks a = [of_int 1000] /\
  ltb (of_int 1001) instant_1001_0625 = true /\
  within_last_second instant_1001_0625 (of_int 1000) = false.
Proof. vm_compute. repeat split; reflexivity. Qed.

(** ** Reset and start *)

(** What [reset_stats] does to the statistics, by the activity flag and the
    answer. *)
Lemma reset_stats_cases (answer labels_fine : bool) (a : app) :
  let a' := exec (reset_stats answer labels_fine) a in
  if is_clicking a then
    total_clicks a' = total_clicks a /\ session_clicks a' = session_clicks a
  else if answer then
    total_clicks a' = 0 /\ session_clicks a' = 0
  else
    total_clicks a' = total_clicks a /\ session_clicks a' = session_clicks a.
Proof.
  destruct a as [c t s hk cur st cps w recording o].
  destruct c, answer, labels_fine; simpl; split; reflexivity.
Qed.

(** C4. A reset while the activity flag is set is rejected with a warning and
    leaves the total count, the session count, the window and the observed
    rate as they were; a confirmed reset while idle sets the total count, the
    session count and the observed rate to zero and empties the window. *)
Theorem reset_stats_guarded (answer labels_fine : bool) (a : app) :
  let a' := exec (reset_stats answer labels_fine) a in
  if is_clicking a then
    a' = set_out (out a ++ [Dialog showwarning "Warning" "Stop clicking first"]) a /\
    total_clicks a' = total_clicks a /\
    session_clicks a' = session_clicks a /\
    last_second_clicks a' = last_second_clicks a /\
    actual_cps a' = actual_cps a /\
    is_clicking a' = true
  else if answer then
    total_clicks a' = 0 /\
    session_clicks a' = 0 /\
    last_second_clicks a' = [] /\
    actual_cps a' = 0 /\
    is_clicking a' = false
  else
    total_clicks a' = total_clicks a /\
    session_clicks a' = session_clicks a /\
    last_second_clicks a' = last_second_clicks a /\
    actual_cps a' = actual_cps a /\
    is_clicking a' = false.
Proof.
  destruct a as [c t s hk cur st cps w recording o].
  destruct c, answer, labels_fine; simpl; repeat split; reflexivity.
Qed.

Lemma start_clicking_state kb now a :
  let a' := exec (start_clicking kb now) a in
  is_clicking a' = true /\
  start_time a' = Some now /\
  session_clicks a' = 0 /\
  last_second_clicks a' = [] /\
  total_clicks a' = total_clicks a /\
  hotkey a' = hotkey a.
Proof.
  destruct a as [c t s hk cur st cps w recording o].
  destruct kb, cur as [[ | ch k] | ]; simpl; repeat split; reflexivity.
Qed.

#[export] Instance stays_idle_frame : Frame stays_idle.
Proof. split; unfold stays_idle; simpl; intros; auto. Qed.

Ltac idle_writes := intros ?; unfold stays_idle; simpl; auto.

Lemma start_recording_hotkey_idle kb answer ok :
  respects stays_idle (start_recording_hotkey kb answer ok).
Proof. unfold start_recording_hotkey. repeat respects_step; idle_writes. Qed.

Lemma on_press_idle name : respects stays_idle (_on_press name).
Proof. unfold _on_press. repeat respects_step; idle_writes. Qed.

Lemma reset_stats_idle answer fine : respects stays_idle (reset_stats answer fine).
Proof. unfold reset_stats. repeat respects_step; idle_writes. Qed.

(** A worker that finds the activity flag cleared leaves its loop. *)
Lemma while_loop_terminal {X} (body : X -> M flow) (xs : list X) (a : app) :
  xs <> [] -> is_clicking a = false -> while_loop body xs a = (Return Exited, a).
Proof.
  intros Hxs H. destruct xs as [ | x rest]; [ congruence | ].
  cbn [while_loop]. unfold bind, read. now rewrite H.
Qed.

(** A worker whose test fails does nothing. *)
Lemma while_is_clicking_idle (body : M flow) (a : app) :
  is_clicking a = false -> while_is_clicking body a = (Return tt, a).
Proof. intros H. unfold while_is_clicking, bind, read. now rewrite H. Qed.

Lemma while_is_clicking_active (body : M flow) (a : app) :
  is_clicking a = true -> exec (while_is_clicking body) a = exec body a.
Proof.
  intros H. unfold exec, while_is_clicking, bind, read, ret. rewrite H.
  now destruct (body a) as [[v | ] a'].
Qed.

Lemma toggle_clicking_cases kb now a :
  toggle_clicking kb now a =
    if String.eqb (hotkey a) NOT_SET then (Return tt, a)
    else if is_clicking a then stop_clicking a
    else start_clicking kb now a.
Proof.
  unfold toggle_clicking, bind, read.
  destruct (String.eqb (hotkey a) NOT_SET); [ reflexivity | ].
  now destruct (is_clicking a).
Qed.

(** C9. [start_clicking] sets the session count to zero and empties the
    window and leaves the total count as it was; and whichever step takes the
    object from idle to active, the session begins with session count zero,
    an empty window and the total count it had. *)
Theorem start_clicking_resets_session
    (kb pa : bool) (now : float) (o : op) (a : app) :
  (let a' := exec (start_clicking kb now) a in
   session_clicks a' = 0 /\
   last_second_clicks a' = [] /\
   total_clicks a' = total_clicks a /\
   is_clicking a' = true) /\
  (is_clicking a = false ->
   is_clicking (step kb pa o a) = true ->
   session_clicks (step kb pa o a) = 0 /\
   last_second_clicks (step kb pa o a) = [] /\
   total_clicks (step kb pa o a) = total_clicks a).
Proof.
  split.
  - pose proof (start_clicking_state kb now a) as S. simpl in *. tauto.
  - intros Hidle Hactive.
    destruct o as [answer ok | name | now' | env | now' ok | now' ok | answer fine];
      unfold step, exec in *.
    + rewrite (start_recording_hotkey_idle kb answer ok a Hidle) in Hactive.
      discriminate.
    + rewrite (on_press_idle name a Hidle) in Hactive. discriminate.
    + rewrite toggle_clicking_cases in *. rewrite Hidle in *.
      destruct (String.eqb (hotkey a) NOT_SET); simpl in Hactive;
        [ congruence | ].
      pose proof (start_clicking_state kb now' a) as S. simpl in S.
      unfold exec in S. tauto.
    + rewrite while_is_clicking_idle in Hactive by assumption.
      simpl in Hactive. congruence.
    + rewrite while_is_clicking_idle in Hactive by assumption.
      simpl in Hactive. congruence.
    + rewrite while_is_clicking_idle in Hactive by assumption.
      simpl in Hactive. congruence.
    + rewrite (reset_stats_idle answer fine a Hidle) in Hactive. discriminate.
Qed.

(** C9, at a second start: the stopped session had counted 3 clicks; the
    new one begins with session count 0 and total count 3. *)
Lemma start_clicking_resets_session_witness :
  let a := run false true three_clicks_stopped init in
  let a' := step false true (ToggleClicking (of_int 1003)) a in
  is_clicking a = false /\
  session_clicks a = 3 /\
  session_clicks a' = 0 /\
  total_clicks a' = 3.
Proof.
  pose proof (proj2 (start_clicking_resets_session false true (of_int 1003)
                       (ToggleClicking (of_int 1003))
                       (run false true three_clicks_stopped init))
                eq_refl eq_refl) as H.
  split; [ reflexivity | ].
  split; [ reflexivity | ].
  split; [ exact (proj1 H) | exact (proj2 (proj2 H)) ].
Defined.

(** ** The counters along a run *)


(** Every step but a start and a reset advances the counters together. *)
Lemma step_counters_advance kb pa o a :
  match o with
  | ToggleClicking _ => is_clicking a = true
  | ResetStats _ _ => False
  | _ => True
  end ->
  counters_advance a (step kb pa o a).
Proof.
  destruct o as [answer ok | name | now | env | now ok | now ok | answer fine];
    unfold step, exec; intros Ho.
  - apply start_recording_hotkey_counters.
  - apply on_press_counters.
  - rewrite toggle_clicking_cases, Ho.
    destruct (String.eqb (hotkey a) NOT_SET).
    + apply frame_refl.
    + apply stop_clicking_counters.
  - apply respects_while; [ exact _ | apply click_body_counters ].
  - apply respects_while; [ exact _ | apply monitor_body_counters ].
  - apply respects_while; [ exact _ | apply timer_body_counters ].
  - contradiction.
Qed.

Lemma toggle_idle_counters kb pa now a :
  is_clicking a = false ->
  let a' := step kb pa (ToggleClicking now) a in
  total_clicks a' = total_clicks a /\
  (session_clicks a' = session_clicks a \/ session_clicks a' = 0).
Proof.
  intros Hidle. unfold step, exec. rewrite toggle_clicking_cases, Hidle.
  destruct (String.eqb (hotkey a) NOT_SET); simpl; [ auto | ].
  pose proof (start_clicking_state kb now a) as S. simpl in S. unfold exec in S.
  intuition.
Qed.



(** C5, as amended. No step other than a confirmed reset lowers the total
    count; a confirmed reset leaves it as it is while the activity flag is
    set and sets it to zero while idle. *)
Theorem total_clicks_monotone_except_reset (kb pa : bool) (o : op) (a : app) :
  match o with
  | ResetStats true _ =>
      total_clicks (step kb pa o a) = if is_clicking a then total_clicks a else 0
  | _ => total_clicks a <= total_clicks (step kb pa o a)
  end.
Proof.
  destruct o as [answer ok | name | now | env | now ok | now ok | answer fine].
  all: try (match goal with
            | |- _ <= total_clicks (step _ _ ?o' _) =>
                pose proof (step_counters_advance kb pa o' a I) as C
            end;
            unfold counters_advance in C; lia).
  - destruct (is_clicking a) eqn:Hc.
    + pose proof (step_counters_advance kb pa (ToggleClicking now) a Hc) as C.
      unfold counters_advance in C. lia.
    + pose proof (toggle_idle_counters kb pa now a Hc) as T. cbv zeta in T. lia.
  - pose proof (reset_stats_cases answer fine a) as G.
    unfold step. cbv zeta in G.
    destruct answer, (is_clicking a); decompose [and] G; lia.
Qed.

(** C5 as stated fails: after one click the total count is 1, and the
    confirmed reset of the stopped session lowers it to 0. *)
Lemma total_clicks_drops_on_reset :
  let a := run false true clicked_and_stopped init in
  total_clicks a = 1 /\
  total_clicks (step false true (ResetStats true true) a) = 0 /\
  ~ total_clicks a <= total_clicks (step false true (ResetStats true true) a).
Proof. vm_compute. repeat split; try reflexivity. intros H. apply H. reflexivity. Qed.

(** ** Start without a hotkey *)

(** C6. While the hotkey holds "NOT SET", [toggle_clicking] returns at once:
    the object, the activity flag and the trace of external calls (so no
    thread is started) are as before, however often it is called. *)
Theorem toggle_rejected_until_hotkey_set
    (kb pa : bool) (now : float) (nows : list float) (a : app) :
  hotkey a = NOT_SET ->
  toggle_clicking kb now a = (Return tt, a) /\
  is_clicking (step kb pa (ToggleClicking now) a) = is_clicking a /\
  out (step kb pa (ToggleClicking now) a) = out a /\
  run kb pa (map ToggleClicking nows) a = a.
Proof.
  intros Hk.
  assert (T : forall t, toggle_clicking kb t a = (Return tt, a)).
  { intros t. rewrite toggle_clicking_cases, Hk. reflexivity. }
  unfold step, exec. rewrite T. simpl. repeat split.
  induction nows as [ | t nows IH]; simpl; [ reflexivity | ].
  unfold exec. rewrite T. exact IH.
Qed.

(** C6, at the initial state: the activity flag stays false. *)
Lemma toggle_rejected_until_hotkey_set_witness :
  hotkey init = NOT_SET /\
  is_clicking (step true true (ToggleClicking (of_int 1000)) init) = false.
Proof.
  split; [ reflexivity | ].
  rewrite (proj1 (proj2 (toggle_rejected_until_hotkey_set
                           true true (of_int 1000) [] init eq_refl))).
  reflexivity.
Defined.

(** ** One pass of the click loop *)

Ltac unfold_py :=
  unfold exec, emit, call, external, modify, read, try_except, bind, ret, raise.

Lemma hold_check_passes kb env mode a :
  click_mode_get env = Some mode ->
  holds_idle kb env = false ->
  hold_check kb env a = (Return false, a).
Proof.
  unfold holds_idle, hold_check. intros -> Hidle. unfold_py.
  destruct (String.eqb mode "hold" && kb)%bool; [ | reflexivity ].
  destruct (is_pressed env) as [[ | ] | ]; try reflexivity; discriminate.
Qed.

Lemma hold_check_idles kb env a :
  holds_idle kb env = true ->
  hold_check kb env a = (Return true, set_out (out a ++ [Sleep lit_0_001]) a).
Proof.
  unfold holds_idle, hold_check. intros Hidle. unfold_py.
  destruct (click_mode_get env) as [mode | ]; [ | discriminate ].
  destruct (is_pressed env) as [[ | ] | ]; try discriminate.
  rewrite Hidle. reflexivity.
Qed.

(** No injection call raises: the pairs are injected in order. *)
Lemma perform_clicks_ok pa env clicks b a :
  button_type_get env = Some b ->
  injection_raises pa env clicks = false ->
  perform_clicks pa env clicks a =
    (Return tt, set_out (out a ++ pairs b (if clicks =? 2 then 2 else 1)) a).
Proof.
  unfold injection_raises, perform_clicks, mouse_call. intros Hb Hr.
  rewrite Hb in *. destruct pa; [ | discriminate ]. simpl in Hr.
  destruct a; unfold_py; simpl.
  destruct (inject_fault env) as [[ | [ | [ | [ | k]]]] | ];
    destruct (clicks =? 2); simpl in *;
    try discriminate; unfold set_out; simpl; rewrite <- ?app_assoc; reflexivity.
Qed.

(** An injection call raises: the block is left by the exception, after the
    calls [evs] that went through, and nothing but the trace has changed. *)
Lemma perform_clicks_raises pa env clicks a :
  injection_raises pa env clicks = true ->
  exists evs, perform_clicks pa env clicks a = (Raise, set_out (out a ++ evs) a).
Proof.
  unfold injection_raises, perform_clicks, mouse_call. intros Hr.
  destruct a; unfold_py; unfold set_out; simpl.
  destruct pa; simpl in *.
  2:{ exists (@nil effect). now rewrite app_nil_r. }
  destruct (button_type_get env) as [b | ]; simpl in *.
  2:{ exists (@nil effect). now rewrite app_nil_r. }
  destruct (inject_fault env) as [[ | [ | [ | [ | k]]]] | ];
    destruct (clicks =? 2); simpl in *;
    try discriminate; rewrite <- ?app_assoc; simpl;
    first [ now (exists (@nil effect); rewrite app_nil_r) | eexists; reflexivity ].
Qed.

Lemma mouse_events_pairs b n : mouse_events (pairs b n) = pairs b n.
Proof. induction n as [ | n IH]; simpl; [ reflexivity | now rewrite IH ]. Qed.

Lemma mouse_events_app l1 l2 :
  mouse_events (l1 ++ l2) = mouse_events l1 ++ mouse_events l2.
Proof. apply filter_app. Qed.

#[local] Arguments perform_clicks : simpl never.
#[local] Arguments hold_check : simpl never.
#[local] Arguments interval : simpl never.

(** C7. When an injection call of an iteration raises, the iteration stops
    the session and returns from [click_loop]: the activity flag is cleared,
    the loop is left without another pass, and the total count, the session
    count and the window are as before the iteration. *)
Theorem injection_failure_stops_session
    (kb pa : bool) (env : click_env) (rest : list click_env) (a : app)
    (mode ct : string) :
  is_clicking a = true ->
  click_mode_get env = Some mode ->
  holds_idle kb env = false ->
  click_type_get env = Some ct ->
  injection_raises pa env (click_count ct) = true ->
  let a' := exec (click_body kb pa env) a in
  fst (click_body kb pa env a) = Return FunctionReturn /\
  is_clicking a' = false /\
  total_clicks a' = total_clicks a /\
  session_clicks a' = session_clicks a /\
  last_second_clicks a' = last_second_clicks a /\
  click_loop kb pa (env :: rest) a = (Return Exited, a').
Proof.
  intros Hact Hmode Hidle Hct Hinj.
  destruct (perform_clicks_raises pa env (click_count ct) a Hinj) as [evs Hp].
  assert (B : click_body kb pa env a =
              (Return FunctionReturn,
               set_out (out a ++ evs
                        ++ [ Stdout "pyautogui.click failed; stopping clicking";
                             Text start_btn "START";
                             Text status ("Stopped - Press " ++ hotkey a ++ " to restart") ])
                 (set_is_clicking false a))).
  { unfold click_body, try_except at 1, bind at 1.
    rewrite (hold_check_passes kb env mode a Hmode Hidle).
    rewrite Hct. unfold external, bind at 1, ret at 1.
    unfold bind at 1, try_except at 1, bind at 1. rewrite Hp.
    destruct a; unfold stop_clicking; unfold_py; unfold set_out, set_is_clicking;
      simpl; rewrite <- !app_assoc; reflexivity. }
  assert (L : click_loop kb pa (env :: rest) a =
              (Return Exited, snd (click_body kb pa env a))).
  { unfold click_loop. cbn [while_loop]. unfold bind, read. cbv beta iota.
    rewrite Hact, B. reflexivity. }
  unfold exec. rewrite L, B. simpl. repeat split; reflexivity.
Qed.

(** C7, at a concrete iteration: the second press of a double click raises
    in the session that [started] starts. *)
Lemma injection_failure_stops_session_witness :
  is_clicking (exec (click_body false true (faulty_click (of_int 1000)))
                 (run false true started init)) = false.
Proof.
  apply (injection_failure_stops_session false true (faulty_click (of_int 1000)) []
           (run false true started init) "toggle" "double");
    reflexivity.
Defined.

Lemma mouse_events_after_injection env t s :
  mouse_events (after_injection env t s) = [].
Proof.
  unfold after_injection.
  destruct ((s mod 10 =? 0) && labels_ok env)%bool, (cps_get env); reflexivity.
Qed.

(** A pass in which the injection goes through: the pairs are injected, both
    counters advance by the click count, the clock reading enters the window,
    and the pass ends in the sleep of line 471 unless the rate cannot be
    read. *)
Lemma click_body_injected kb pa env a mode ct b :
  click_mode_get env = Some mode ->
  holds_idle kb env = false ->
  click_type_get env = Some ct ->
  button_type_get env = Some b ->
  injection_raises pa env (click_count ct) = false ->
  click_body kb pa env a =
    (Return Fallthrough,
     set_out (out a ++ pairs b (if click_count ct =? 2 then 2 else 1)
                    ++ after_injection env (total_clicks a + click_count ct)
                                           (session_clicks a + click_count ct))
       (set_last_second_clicks (last_second_clicks a ++ [time_time env])
          (set_session_clicks (session_clicks a + click_count ct)
             (set_total_clicks (total_clicks a + click_count ct) a)))).
Proof.
  intros Hmode Hidle Hct Hb Hinj.
  unfold click_body, try_except at 1, bind at 1.
  rewrite (hold_check_passes kb env mode a Hmode Hidle).
  rewrite Hct. unfold external at 1, bind at 1, ret at 1.
  unfold bind at 1, try_except at 1, bind at 1.
  rewrite (perform_clicks_ok pa env (click_count ct) b a Hb Hinj).
  destruct a as [c t s hk cur st cps w recording o].
  unfold update_labels, after_injection; unfold_py;
    unfold set_out, set_last_second_clicks, set_session_clicks, set_total_clicks;
    simpl.
  destruct ((s + click_count ct) mod 10 =? 0), (labels_ok env),
    (cps_get env) as [r | ]; simpl;
    try rewrite (interval_total r); simpl; rewrite <- ?app_assoc;
    reflexivity.
Qed.

(** C8. In a pass of the click loop in which the injection goes through, the
    click count is 2 for the double kind and 1 otherwise; that many
    press+release pairs of the selected button are injected and nothing else,
    and both counters advance by the click count: double injects twice the
    pairs of single. *)
Theorem double_click_twice_single
    (kb pa : bool) (env : click_env) (a : app) (mode ct b : string) :
  click_mode_get env = Some mode ->
  holds_idle kb env = false ->
  click_type_get env = Some ct ->
  button_type_get env = Some b ->
  injection_raises pa env (click_count ct) = false ->
  let a' := exec (click_body kb pa env) a in
  total_clicks a' = total_clicks a + click_count ct /\
  session_clicks a' = session_clicks a + click_count ct /\
  mouse_events (out a') =
    mouse_events (out a) ++ pairs b (Z.to_nat (click_count ct)) /\
  click_count "double" = 2 /\
  click_count "single" = 1 /\
  (click_count ct = 2 <-> ct = "double"%string).
Proof.
  intros Hmode Hidle Hct Hb Hinj.
  pose proof (click_body_injected kb pa env a mode ct b Hmode Hidle Hct Hb Hinj)
    as B.
  unfold exec. rewrite B. simpl.
  repeat split.
  - rewrite !mouse_events_app, mouse_events_pairs, mouse_events_after_injection,
      app_nil_r.
    now destruct (click_count_cases ct) as [-> | ->].
  - unfold click_count. destruct (String.eqb_spec ct "double"); congruence.
  - intros ->. reflexivity.
Qed.

(** C8, at concrete iterations of the session that [started] starts: a
    double click injects two pairs and a single click one. *)
Lemma double_click_twice_single_witness :
  mouse_events
    (out (exec (click_body false true (plain_click "double" (of_int 1000)))
            (run false true started init))) = pairs "left" 2 /\
  mouse_events
    (out (exec (click_body false true (plain_click "single" (of_int 1000)))
            (run false true started init))) = pairs "left" 1.
Proof.
  split.
  - apply (double_click_twice_single false true
             (plain_click "double" (of_int 1000))
             (run false true started init) "toggle" "double" "left");
      reflexivity.
  - apply (double_click_twice_single false true
             (plain_click "single" (of_int 1000))
             (run false true started init) "toggle" "single" "left");
      reflexivity.
Defined.

(** ** The pace of the click loop and what the reporter counts *)

Lemma slept_app l1 l2 : slept (l1 ++ l2) = slept l1 ++ slept l2.
Proof. apply flat_map_app. Qed.

Lemma slept_pairs b n : slept (pairs b n) = [].
Proof. induction n as [ | n IH]; simpl; [ reflexivity | exact IH ]. Qed.

Lemma slept_after_injection env t s r :
  cps_get env = Some r ->
  slept (after_injection env t s) =
    [max lit_0_002 (SFdiv prec emax lit_1_0 (max lit_0_1 r))].
Proof.
  unfold after_injection. intros ->.
  destruct ((s mod 10 =? 0) && labels_ok env)%bool; reflexivity.
Qed.

Lemma no_injection_fault_button pa env clicks :
  injection_raises pa env clicks = false ->
  exists b, button_type_get env = Some b.
Proof.
  unfold injection_raises. destruct (button_type_get env) as [b | ].
  - eauto.
  - rewrite orb_true_r. discriminate.
Qed.

(** What [pass_injects] says of the fields of the environment. *)
Lemma pass_injects_fields kb pa env :
  pass_injects kb pa env = true ->
  exists mode ct b,
    click_mode_get env = Some mode /\
    holds_idle kb env = false /\
    click_type_get env = Some ct /\
    button_type_get env = Some b /\
    injection_raises pa env (click_count ct) = false.
Proof.
  unfold pass_injects. intros H.
  destruct (click_mode_get env) as [mode | ]; [ | discriminate ].
  destruct (click_type_get env) as [ct | ] eqn:Hct; [ | discriminate ].
  apply andb_prop in H. destruct H as [Hidle Hok].
  apply negb_true_iff in Hidle. apply negb_true_iff in Hok.
  destruct (no_injection_fault_button pa env (click_count ct) Hok) as [b Hb].
  exists mode, ct, b. auto.
Qed.

(** C1. For every rate [r], the interval of line 470 is
    [max(0.002, 1.0 / max(0.1, r))]: the division does not raise, the divisor
    is at least 0.1 and not zero, and the interval is at least 0.002.  And a
    pass of the click loop that reads the rate [r] (it reaches line 470: its
    injection went through) falls through after sleeping exactly once, for
    that interval. *)
Theorem interval_clamped
    (kb pa : bool) (env : click_env) (a : app) (r : float) :
  (interval r = Some (max lit_0_002 (SFdiv prec emax lit_1_0 (max lit_0_1 r))) /\
   leb lit_0_1 (max lit_0_1 r) = true /\
   is_zero (max lit_0_1 r) = false /\
   match interval r with
   | Some i => leb lit_0_002 i = true
   | None => False
   end) /\
  (pass_injects kb pa env = true ->
   cps_get env = Some r ->
   fst (click_body kb pa env a) = Return Fallthrough /\
   slept (out (exec (click_body kb pa env) a)) =
     slept (out a)
     ++ [max lit_0_002 (SFdiv prec emax lit_1_0 (max lit_0_1 r))] /\
   leb lit_0_002
     (last (slept (out (exec (click_body kb pa env) a))) (S754_zero false)) = true).
Proof.
  pose proof (interval_total r) as E.
  split.
  - repeat split.
    + exact E.
    + now apply max_lower_bound.
    + apply clamped_rate_not_zero.
    + rewrite E. now apply max_lower_bound.
  - intros Hinj Hr.
    destruct (pass_injects_fields kb pa env Hinj)
      as (mode & ct & b & Hmode & Hidle & Hct & Hb & Hok).
    pose proof (click_body_injected kb pa env a mode ct b Hmode Hidle Hct Hb Hok) as B.
    unfold exec. rewrite B. simpl.
    rewrite !slept_app, slept_pairs, (slept_after_injection env _ _ r Hr). simpl.
    repeat split. rewrite last_last. now apply max_lower_bound.
Qed.

(** C1, at a pass of the session that [started] starts, at one click per
    second: the pass sleeps once, for 1.0 s. *)
Lemma interval_clamped_witness :
  slept (out (exec (click_body false true (plain_click "single" (of_int 1000)))
                (run false true started init))) = [lit_1_0].
Proof.
  exact (proj1 (proj2 (proj2 (interval_clamped false true
                                (plain_click "single" (of_int 1000))
                                (run false true started init) (of_int 1))
                         eq_refl eq_refl))).
Defined.

(** C3, as amended. One iteration of the observed-rate reporter at clock
    reading [now] replaces the window by the timestamps [t] of the window
    with [now - t <= 1.0] (binary64 subtraction and comparison; 1.0 is
    2^52 * 2^-52), in their order, then stores the length of the pruned
    window as the observed rate, a non-negative integer, and publishes it.
    The click loop records one timestamp per pass in which the injection goes
    through, while the counters advance by the click count of the pass: the
    observed rate counts passes, not clicks. *)
Theorem monitor_body_prunes_and_publishes
    (kb pa : bool) (now : float) (label_ok : bool) (env : click_env) (a : app) :
  (let a' := exec (monitor_body now label_ok) a in
   last_second_clicks a' =
     filter (fun t => SFleb (SFsub 53 1024 now t)
                        (S754_finite false 4503599627370496 (-52)))
            (last_second_clicks a) /\
   actual_cps a' = Z.of_nat (List.length (last_second_clicks a')) /\
   0 <= actual_cps a' /\
   out a' = out a ++ (if label_ok then [TextCps (actual_cps a')] else [])
                  ++ [Sleep lit_0_1] /\
   fst (monitor_body now label_ok a) = Return Fallthrough) /\
  (pass_injects kb pa env = true ->
   let a' := exec (click_body kb pa env) a in
   last_second_clicks a' = last_second_clicks a ++ [time_time env] /\
   total_clicks a' = total_clicks a + clicks_of env /\
   session_clicks a' = session_clicks a + clicks_of env).
Proof.
  split.
  - unfold exec. rewrite monitor_body_state. simpl.
    repeat split; auto using Nat2Z.is_nonneg.
  - intros Hinj.
    destruct (pass_injects_fields kb pa env Hinj)
      as (mode & ct & b & Hmode & Hidle & Hct & Hb & Hok).
    pose proof (click_body_injected kb pa env a mode ct b Hmode Hidle Hct Hb Hok) as B.
    cbv zeta. unfold exec, clicks_of. rewrite B, Hct. simpl.
    repeat split; reflexivity.
Qed.

(** C3, at a double click of the session that [started] starts: one
    timestamp, two clicks. *)
Lemma monitor_body_prunes_and_publishes_witness :
  let a := run false true started init in
  let a' := exec (click_body false true (plain_click "double" (of_int 1000))) a in
  last_second_clicks a' = [of_int 1000] /\ total_clicks a' = 2.
Proof.
  pose proof (proj2 (monitor_body_prunes_and_publishes false true (of_int 1000) true
                       (plain_click "double" (of_int 1000))
                       (run false true started init)) eq_refl) as H.
  split; [ exact (proj1 H) | exact (proj1 (proj2 H)) ].
Defined.

(** C3 as stated fails: after one double click at 1000.0 the reporter, at
    1000.125, finds the one timestamp of the pass within the last second and
    publishes the rate 1, while two actions were performed and counted in
    that second. *)
Lemma observed_rate_counts_passes_not_clicks :
  let a := run false true double_then_pruned init in
  last_second_clicks a = [of_int 1000] /\
  within_last_second (of_dyadic 8001 (-3)) (of_int 1000) = true /\
  actual_cps a = 1 /\
  mouse_events (out a) = pairs "left" 2 /\
  session_clicks a = 2 /\
  actual_cps a <> session_clicks a.
Proof. vm_compute. repeat split; try reflexivity. discriminate. Qed.

(** ** The other ways through a pass of the click loop *)

Lemma click_body_idles kb pa env a :
  holds_idle kb env = true ->
  click_body kb pa env a =
    (Return LoopContinue, set_out (out a ++ [Sleep lit_0_001]) a).
Proof.
  intros Hidle. unfold click_body, try_except at 1, bind at 1.
  rewrite (hold_check_idles kb env a Hidle). reflexivity.
Qed.

(** X1. In hold mode, with the keyboard module there and the hotkey not
    held, a pass of the click loop injects nothing and counts nothing: it
    sleeps 0.001 s and ends in [continue]; nothing but the trace changes. *)
Theorem hold_mode_idles_without_clicking
    (kb pa : bool) (env : click_env) (a : app) :
  holds_idle kb env = true ->
  click_body kb pa env a =
    (Return LoopContinue, set_out (out a ++ [Sleep lit_0_001]) a) /\
  mouse_events (out (exec (click_body kb pa env) a)) = mouse_events (out a).
Proof.
  intros Hidle.
  assert (B : click_body kb pa env a =
              (Return LoopContinue, set_out (out a ++ [Sleep lit_0_001]) a)).
  { exact (click_body_idles kb pa env a Hidle). }
  split; [ exact B | ].
  unfold exec. rewrite B. simpl.
  rewrite mouse_events_app. simpl. apply app_nil_r.
Qed.

(** X1, at a concrete pass: hold mode, key not held. *)
Lemma hold_mode_idles_without_clicking_witness :
  total_clicks (exec (click_body true true (unheld_click (of_int 1000))) init) = 0.
Proof.
  unfold exec.
  rewrite (proj1 (hold_mode_idles_without_clicking
                    true true (unheld_click (of_int 1000)) init eq_refl)).
  reflexivity.
Defined.

(** X2. When the query [keyboard.is_pressed] raises, the pass goes on as if
    the hotkey were held: the exception is swallowed at line 439. *)
Theorem hold_query_failure_counts_as_held
    (kb pa : bool) (env : click_env) (a : app) :
  click_body kb pa (with_is_pressed None env) a =
  click_body kb pa (with_is_pressed (Some true) env) a.
Proof.
  assert (H : hold_check kb (with_is_pressed None env) a =
              hold_check kb (with_is_pressed (Some true) env) a).
  { unfold hold_check, with_is_pressed. unfold_py. simpl.
    destruct (click_mode_get env) as [mode | ]; [ | reflexivity ].
    destruct (String.eqb mode "hold" && kb)%bool; reflexivity. }
  unfold click_body, try_except at 1 3, bind at 1 14.
  rewrite H. reflexivity.
Qed.

Lemma click_body_mode_unreadable kb pa env a :
  click_mode_get env = None ->
  click_body kb pa env a =
    (Return Fallthrough,
     set_out (out a ++ [Stdout "Click error:"; Sleep lit_0_01]) a).
Proof.
  intros Hmode. unfold click_body, hold_check. rewrite Hmode.
  destruct a; unfold_py; unfold set_out; simpl.
  rewrite <- app_assoc. reflexivity.
Qed.

Lemma click_body_type_unreadable kb pa env mode a :
  click_mode_get env = Some mode ->
  holds_idle kb env = false ->
  click_type_get env = None ->
  click_body kb pa env a =
    (Return Fallthrough,
     set_out (out a ++ [Stdout "Click error:"; Sleep lit_0_01]) a).
Proof.
  intros Hmode Hidle Hct.
  unfold click_body, try_except at 1, bind at 1.
  rewrite (hold_check_passes kb env mode a Hmode Hidle), Hct.
  destruct a; unfold_py; unfold set_out; simpl.
  rewrite <- app_assoc. reflexivity.
Qed.

(** X3. When the mode or the click type cannot be read, the pass injects and
    counts nothing, prints "Click error:", sleeps 0.01 s and falls through to
    the next test of the loop; the session stays as it is. *)
Theorem read_failure_is_logged_and_skipped
    (kb pa : bool) (env : click_env) (a : app) :
  read_fails kb env = true ->
  click_body kb pa env a =
    (Return Fallthrough,
     set_out (out a ++ [Stdout "Click error:"; Sleep lit_0_01]) a).
Proof.
  unfold read_fails. intros H.
  destruct (click_mode_get env) as [mode | ] eqn:Hmode.
  - destruct (click_type_get env) as [ct | ] eqn:Hct; [ discriminate | ].
    apply (click_body_type_unreadable kb pa env mode a Hmode); [ | exact Hct ].
    now destruct (holds_idle kb env).
  - now apply click_body_mode_unreadable.
Qed.

(** X3, at a concrete pass: the click type cannot be read. *)
Lemma read_failure_is_logged_and_skipped_witness :
  is_clicking
    (exec (click_body false true (unreadable_click (of_int 1000)))
       (run false true started init)) = true.
Proof.
  unfold exec.
  rewrite (read_failure_is_logged_and_skipped
             false true (unreadable_click (of_int 1000))
             (run false true started init) eq_refl).
  reflexivity.
Defined.

(** With the module there and the button readable, the injection call number
    [k] raising leaves the [k] calls before it in the trace. *)
Lemma perform_clicks_partial env clicks b k a :
  button_type_get env = Some b ->
  inject_fault env = Some k ->
  (k < if (clicks =? 2)%Z then 4 else 2)%nat ->
  perform_clicks true env clicks a =
    (Raise, set_out (out a ++ firstn k (injection_calls b)) a).
Proof.
  unfold perform_clicks, mouse_call, injection_calls. intros Hb Hk Hlt.
  rewrite Hb, Hk. destruct a; unfold_py; unfold set_out; simpl.
  destruct (clicks =? 2); destruct k as [ | [ | [ | [ | k]]]]; simpl in *;
    try lia; rewrite <- ?app_assoc; simpl; rewrite ?app_nil_r; reflexivity.
Qed.

(** X5. When injection call number [k] of a pass raises, the [k] calls before
    it have been injected and stay uncounted: the trace holds the first [k]
    of press, release, press, release, and both counters are as before. A
    press can so be left without its release, and the first click of a double
    click can be injected without being counted. *)
Theorem failed_injection_leaves_partial_clicks
    (kb : bool) (env : click_env) (a : app) (mode ct b : string) (k : nat) :
  click_mode_get env = Some mode ->
  holds_idle kb env = false ->
  click_type_get env = Some ct ->
  button_type_get env = Some b ->
  inject_fault env = Some k ->
  (k < if (click_count ct =? 2)%Z then 4 else 2)%nat ->
  let a' := exec (click_body kb true env) a in
  mouse_events (out a') = mouse_events (out a) ++ firstn k (injection_calls b) /\
  total_clicks a' = total_clicks a /\
  session_clicks a' = session_clicks a /\
  is_clicking a' = false.
Proof.
  intros Hmode Hidle Hct Hb Hk Hlt.
  assert (B : click_body kb true env a =
              (Return FunctionReturn,
               set_out (out a ++ firstn k (injection_calls b)
                        ++ [ Stdout "pyautogui.click failed; stopping clicking";
                             Text start_btn "START";
                             Text status ("Stopped - Press " ++ hotkey a ++ " to restart") ])
                 (set_is_clicking false a))).
  { unfold click_body, try_except at 1, bind at 1.
    rewrite (hold_check_passes kb env mode a Hmode Hidle).
    rewrite Hct. unfold external, bind at 1, ret at 1.
    unfold bind at 1, try_except at 1, bind at 1.
    rewrite (perform_clicks_partial env (click_count ct) b k a Hb Hk Hlt).
    destruct a; unfold stop_clicking; unfold_py; unfold set_out, set_is_clicking;
      simpl; rewrite <- !app_assoc; reflexivity. }
  unfold exec. rewrite B. simpl. repeat split.
  rewrite !mouse_events_app. simpl. rewrite app_nil_r. f_equal.
  unfold injection_calls.
  destruct k as [ | [ | [ | [ | k]]]]; try reflexivity.
  destruct (click_count ct =? 2); lia.
Qed.

(** X5, at a concrete pass: the second press of a double click raises, after
    a full click that is not counted. *)
Lemma failed_injection_leaves_partial_clicks_witness :
  let a := run false true started init in
  let a' := exec (click_body false true (faulty_click (of_int 1000))) a in
  mouse_events (out a') = [MouseDown "left"; MouseUp "left"] /\
  total_clicks a' = 0.
Proof.
  pose proof (failed_injection_leaves_partial_clicks
                false (faulty_click (of_int 1000)) (run false true started init)
                "toggle" "double" "left" 2
                eq_refl eq_refl eq_refl eq_refl eq_refl (le_S 3 3 (le_n 3))) as H.
  split; [ exact (proj1 H) | exact (proj1 (proj2 H)) ].
Defined.

(** ** The click loop over many passes *)

(** A pass that reaches the injection and fails there stops the session. *)
Lemma click_body_failing kb pa env a :
  pass_fails kb pa env = true ->
  exists a', click_body kb pa env a = (Return FunctionReturn, a') /\
             is_clicking a' = false.
Proof.
  unfold pass_fails. intros H.
  destruct (click_mode_get env) as [mode | ] eqn:Hmode; [ | discriminate ].
  destruct (click_type_get env) as [ct | ] eqn:Hct; [ | discriminate ].
  apply andb_prop in H. destruct H as [Hidle Hinj].
  apply negb_true_iff in Hidle.
  destruct (perform_clicks_raises pa env (click_count ct) a Hinj) as [evs Hp].
  unfold click_body, try_except at 1, bind at 1.
  rewrite (hold_check_passes kb env mode a Hmode Hidle).
  rewrite Hct. unfold external, bind at 1, ret at 1.
  unfold bind at 1, try_except at 1, bind at 1. rewrite Hp.
  destruct a; unfold stop_clicking; unfold_py; unfold set_out, set_is_clicking;
    simpl; eexists; split; reflexivity.
Qed.

(** A pass that does not fail at the injection leaves the activity flag as it
    is and does not return from the loop. *)
Lemma click_body_goes_on kb pa env a :
  pass_fails kb pa env = false ->
  exists f a', click_body kb pa env a = (Return f, a') /\
               f <> FunctionReturn /\
               is_clicking a' = is_clicking a.
Proof.
  unfold pass_fails. intros H.
  destruct (click_mode_get env) as [mode | ] eqn:Hmode.
  2:{ rewrite (click_body_mode_unreadable kb pa env a Hmode).
      do 2 eexists. repeat split; [ discriminate ]. }
  destruct (holds_idle kb env) eqn:Hidle.
  { rewrite (click_body_idles kb pa env a Hidle).
    do 2 eexists. repeat split; [ discriminate ]. }
  destruct (click_type_get env) as [ct | ] eqn:Hct.
  2:{ rewrite (click_body_type_unreadable kb pa env mode a Hmode Hidle Hct).
      do 2 eexists. repeat split; [ discriminate ]. }
  simpl in H.
  destruct (no_injection_fault_button pa env (click_count ct) H) as [b Hb].
  rewrite (click_body_injected kb pa env a mode ct b Hmode Hidle Hct Hb H).
  do 2 eexists. repeat split; [ discriminate ].
Qed.

Lemma click_loop_cons kb pa env rest a :
  is_clicking a = true ->
  click_loop kb pa (env :: rest) a =
    match click_body kb pa env a with
    | (Return FunctionReturn, a') => (Return Exited, a')
    | (Return _, a') => click_loop kb pa rest a'
    | (Raise, a') => (Raise, a')
    end.
Proof.
  intros Hact. unfold click_loop. cbn [while_loop]. unfold bind, read.
  cbv beta iota. rewrite Hact.
  destruct (click_body kb pa env a) as [[[ | | ] | ] a']; reflexivity.
Qed.

(** X6. Over passes in which the injection goes through, [click_loop] stays
    in the loop with the activity flag set; both counters advance by the sum
    of the click counts of the passes, and the window gains the clock reading
    of every pass, in order: one entry per pass, also for a double click. *)
Theorem click_loop_counts_every_pass
    (kb pa : bool) (envs : list click_env) (a : app) :
  is_clicking a = true ->
  forallb (pass_injects kb pa) envs = true ->
  let a' := exec (click_loop kb pa envs) a in
  fst (click_loop kb pa envs a) = Return Running /\
  is_clicking a' = true /\
  total_clicks a' = total_clicks a + sum_clicks envs /\
  session_clicks a' = session_clicks a + sum_clicks envs /\
  last_second_clicks a' = last_second_clicks a ++ map time_time envs.
Proof.
  revert a. induction envs as [ | env envs IH]; intros a Hact Hall.
  - unfold exec, click_loop, sum_clicks. simpl. rewrite app_nil_r.
    repeat split; try assumption; lia.
  - simpl in Hall. apply andb_prop in Hall. destruct Hall as [Hinj Hall].
    unfold pass_injects in Hinj.
    destruct (click_mode_get env) as [mode | ] eqn:Hmode; [ | discriminate ].
    destruct (click_type_get env) as [ct | ] eqn:Hct; [ | discriminate ].
    apply andb_prop in Hinj. destruct Hinj as [Hidle Hok].
    apply negb_true_iff in Hidle. apply negb_true_iff in Hok.
    destruct (no_injection_fault_button pa env (click_count ct) Hok) as [b Hb].
    pose proof (click_body_injected kb pa env a mode ct b Hmode Hidle Hct Hb Hok) as B.
    cbv zeta. unfold exec. rewrite (click_loop_cons kb pa env envs a Hact), B.
    match goal with
    | |- context [click_loop kb pa envs ?s] => specialize (IH s)
    end.
    cbv zeta in IH. unfold exec in IH.
    destruct IH as (R & F & T & S & W); [ exact Hact | exact Hall | ].
    simpl in T, S, W.
    unfold sum_clicks, clicks_of in *. simpl. rewrite Hct.
    repeat split; try assumption; try lia.
    rewrite W, <- app_assoc. reflexivity.
Qed.

(** X6, at two passes of the session that [started] starts: a double click
    and a single click count 3 and leave two entries in the window. *)
Lemma click_loop_counts_every_pass_witness :
  let a := exec (click_loop false true
                   [plain_click "double" (of_int 1000);
                    plain_click "single" (of_int 1001)])
             (run false true started init) in
  total_clicks a = 3 /\ last_second_clicks a = [of_int 1000; of_int 1001].
Proof.
  pose proof (click_loop_counts_every_pass false true
                [plain_click "double" (of_int 1000);
                 plain_click "single" (of_int 1001)]
                (run false true started init) eq_refl eq_refl) as H.
  split; [ exact (proj1 (proj2 (proj2 H))) | exact (proj2 (proj2 (proj2 (proj2 H)))) ].
Defined.

(** X7. [click_loop] leaves its loop on its own only through a failed
    injection: while no pass fails at the injection (passes may idle in hold
    mode or hit a read failure), it stays in the loop with the activity flag
    set; and at the first pass that fails there it returns with the flag
    cleared, without running the passes after it. *)
Theorem click_loop_stops_at_first_failed_injection
    (kb pa : bool) (before : list click_env) (env : click_env)
    (rest : list click_env) (a : app) :
  is_clicking a = true ->
  forallb (fun e => negb (pass_fails kb pa e)) before = true ->
  (fst (click_loop kb pa before a) = Return Running /\
   is_clicking (exec (click_loop kb pa before) a) = true) /\
  (pass_fails kb pa env = true ->
   click_loop kb pa (before ++ env :: rest) a =
     (Return Exited, exec (click_loop kb pa (before ++ [env])) a) /\
   is_clicking (exec (click_loop kb pa (before ++ env :: rest)) a) = false).
Proof.
  revert a. induction before as [ | e before IH]; intros a Hact Hall.
  - split; [ split; [ reflexivity | exact Hact ] | ].
    intros Hfail. cbn [List.app].
    destruct (click_body_failing kb pa env a Hfail) as [a' [B Hoff]].
    unfold exec. rewrite !(click_loop_cons kb pa env _ a Hact), B. simpl.
    split; [ reflexivity | exact Hoff ].
  - simpl in Hall. apply andb_prop in Hall. destruct Hall as [He Hall].
    apply negb_true_iff in He.
    destruct (click_body_goes_on kb pa e a He) as (f & a1 & B & Hf & Hflag).
    rewrite Hact in Hflag.
    specialize (IH a1 Hflag Hall).
    assert (L : forall l, click_loop kb pa (e :: l) a = click_loop kb pa l a1).
    { intros l. rewrite (click_loop_cons kb pa e l a Hact), B.
      destruct f; [ reflexivity | reflexivity | congruence ]. }
    unfold exec in *. cbn [List.app]. rewrite !L. exact IH.
Qed.

(** X7, at a concrete run: a plain pass, then a failing one, then one that
    is never run. *)
Lemma click_loop_stops_at_first_failed_injection_witness :
  total_clicks
    (exec (click_loop false true
             [plain_click "single" (of_int 1000);
              faulty_click (of_int 1001);
              plain_click "single" (of_int 1002)])
       (run false true started init)) = 1.
Proof.
  pose proof (proj2 (click_loop_stops_at_first_failed_injection false true
                [plain_click "single" (of_int 1000)]
                (faulty_click (of_int 1001))
                [plain_click "single" (of_int 1002)]
                (run false true started init) eq_refl eq_refl) eq_refl) as H.
  unfold exec. cbn [List.app] in H. rewrite (proj1 H). reflexivity.
Defined.

(** ** The reporters *)

Lemma filter_idempotent {A} (f : A -> bool) (l : list A) :
  filter f (filter f l) = filter f l.
Proof.
  induction l as [ | x l IH]; simpl; [ reflexivity | ].
  destruct (f x) eqn:Hx; simpl; [ rewrite Hx, IH | ]; auto.
Qed.

Lemma filter_shorter {A} (f : A -> bool) (l : list A) :
  (List.length (filter f l) <= List.length l)%nat.
Proof.
  induction l as [ | x l IH]; simpl; [ lia | ].
  destruct (f x); simpl; lia.
Qed.

(** X8. A pass of the observed-rate reporter only prunes: the window it
    leaves is contained in the window it found and is not longer, the
    observed rate is at most the length of the window it found, and the
    activity flag, both counters, the start time and the hotkey are
    untouched. *)
Theorem monitor_only_prunes (now : float) (label_ok : bool) (a : app) :
  let a' := exec (monitor_body now label_ok) a in
  incl (last_second_clicks a') (last_second_clicks a) /\
  (List.length (last_second_clicks a') <= List.length (last_second_clicks a))%nat /\
  actual_cps a' <= Z.of_nat (List.length (last_second_clicks a)) /\
  is_clicking a' = is_clicking a /\
  total_clicks a' = total_clicks a /\
  session_clicks a' = session_clicks a /\
  start_time a' = start_time a /\
  hotkey a' = hotkey a.
Proof.
  unfold exec. rewrite monitor_body_state. simpl.
  pose proof (filter_shorter (within_last_second now) (last_second_clicks a)).
  repeat split; try lia.
  intros t Ht. apply filter_In in Ht. exact (proj1 Ht).
Qed.

(** X9. Pruning twice at the same clock reading is pruning once: a second
    pass of the reporter at the same [now] leaves the window and the observed
    rate of the first. *)
Theorem monitor_prune_idempotent (now : float) (ok1 ok2 : bool) (a : app) :
  let a1 := exec (monitor_body now ok1) a in
  let a2 := exec (monitor_body now ok2) a1 in
  last_second_clicks a2 = last_second_clicks a1 /\
  actual_cps a2 = actual_cps a1.
Proof.
  unfold exec. rewrite !monitor_body_state. simpl.
  rewrite filter_idempotent. split; reflexivity.
Qed.

Lemma while_loop_cons {X} (body : X -> M flow) x rest a :
  is_clicking a = true ->
  while_loop body (x :: rest) a =
    match body x a with
    | (Return FunctionReturn, a') => (Return Exited, a')
    | (Return _, a') => while_loop body rest a'
    | (Raise, a') => (Raise, a')
    end.
Proof.
  intros Hact. cbn [while_loop]. unfold bind, read. cbv beta iota. rewrite Hact.
  destruct (body x a) as [[[ | | ] | ] a']; reflexivity.
Qed.

(** X10. The observed-rate reporter never leaves its loop while the activity
    flag is set and never changes the flag or the counters: over any passes
    it is still running, the window is the window it found pruned at each
    clock reading in turn, and after at least one pass the observed rate is
    the length of the window. *)
Theorem monitor_cps_runs_while_active (ticks : list (float * bool)) (a : app) :
  is_clicking a = true ->
  let a' := exec (monitor_cps ticks) a in
  fst (monitor_cps ticks a) = Return Running /\
  is_clicking a' = true /\
  total_clicks a' = total_clicks a /\
  session_clicks a' = session_clicks a /\
  last_second_clicks a' = pruned (map fst ticks) (last_second_clicks a) /\
  actual_cps a' = match ticks with
                  | [] => actual_cps a
                  | _ :: _ => Z.of_nat (List.length (last_second_clicks a'))
                  end.
Proof.
  unfold monitor_cps, exec.
  revert a. induction ticks as [ | [now ok] ticks IH]; intros a Hact.
  - simpl. repeat split; assumption.
  - rewrite (while_loop_cons _ (now, ok) ticks a Hact). cbn [fst snd].
    rewrite monitor_body_state. cbv zeta.
    match goal with
    | |- context [while_loop _ ticks ?s] => specialize (IH s Hact)
    end.
    cbv zeta in IH. destruct IH as (R & F & T & S & W & C).
    simpl in T, S, W.
    repeat split; try assumption.
    destruct ticks as [ | tick ticks]; [ | exact C ].
    simpl in *. reflexivity.
Qed.

(** X10, at the session that [started] starts. *)
Lemma monitor_cps_runs_while_active_witness :
  is_clicking
    (exec (monitor_cps [(of_int 1000, true); (of_int 1001, true)])
       (run false true started init)) = true.
Proof.
  exact (proj1 (proj2 (monitor_cps_runs_while_active
                         [(of_int 1000, true); (of_int 1001, true)]
                         (run false true started init) eq_refl))).
Defined.

(** X11. With a start time and a finite elapsed time [e = int(now - start)],
    a pass of the elapsed-time reporter publishes [e // 60] minutes and
    [e % 60] seconds, sleeps one second and changes nothing in the object;
    the seconds are between 0 and 59 and minutes and seconds add up to
    [e]. *)
Theorem update_timer_publishes_minutes_seconds
    (now t0 : float) (e : Z) (a : app) :
  start_time a = Some t0 ->
  to_int (sub now t0) = Some e ->
  timer_body now true a =
    (Return Fallthrough,
     set_out (out a ++ [TextTime (e / 60) (e mod 60); Sleep (of_int 1)]) a) /\
  0 <= e mod 60 < 60 /\
  60 * (e / 60) + e mod 60 = e.
Proof.
  intros Hst He. split.
  - unfold timer_body. unfold_py. rewrite Hst, He.
    destruct a; unfold set_out; simpl. rewrite <- app_assoc. reflexivity.
  - split; [ apply Z.mod_pos_bound; lia | ].
    symmetry. apply Z.div_mod. lia.
Qed.

(** X11, 75.5 s after the start: 1 minute and 15 seconds. *)
Lemma update_timer_publishes_minutes_seconds_witness :
  timer_body (of_dyadic 2151 (-1)) true (run false true started init) =
    (Return Fallthrough,
     set_out (out (run false true started init)
              ++ [TextTime 1 15; Sleep (of_int 1)])
       (run false true started init)).
Proof.
  exact (proj1 (update_timer_publishes_minutes_seconds
                  (of_dyadic 2151 (-1)) (of_int 1000) 75
                  (run false true started init) eq_refl eq_refl)).
Defined.

(** X12. Without a start time, with an elapsed time that is infinite or NaN,
    or when the label update raises, a pass of the elapsed-time reporter
    publishes nothing: it sleeps one second, stays in its loop and changes
    nothing in the object. *)
Theorem update_timer_silent_on_failure (now : float) (label_ok : bool) (a : app) :
  timer_fails now label_ok a = true ->
  timer_body now label_ok a =
    (Return Fallthrough, set_out (out a ++ [Sleep (of_int 1)]) a).
Proof.
  unfold timer_fails, timer_body. unfold_py. intros H.
  destruct (start_time a) as [t0 | ]; [ | reflexivity ].
  destruct (to_int (sub now t0)) as [e | ]; [ | reflexivity ].
  destruct label_ok; [ discriminate | reflexivity ].
Qed.

(** X12, before any session: there is no start time. *)
Lemma update_timer_silent_on_failure_witness :
  timer_body (of_int 1000) true init =
    (Return Fallthrough, set_out [Sleep (of_int 1)] init).
Proof.
  exact (update_timer_silent_on_failure (of_int 1000) true init eq_refl).
Defined.

(** ** Start, stop and the hotkey *)

Lemma stop_clicking_state a :
  stop_clicking a =
    (Return tt,
     set_out (out a ++ [ Text start_btn "START";
                         Text status ("Stopped - Press " ++ hotkey a ++ " to restart") ])
       (set_is_clicking false a)).
Proof.
  destruct a; unfold stop_clicking; unfold_py; unfold set_out, set_is_clicking;
    simpl; rewrite <- app_assoc; reflexivity.
Qed.

Lemma start_clicking_threads kb now a :
  thread_starts (out (exec (start_clicking kb now) a)) =
  thread_starts (out a) ++ workers.
Proof.
  destruct a as [c t s hk cur st cps w recording o].
  unfold thread_starts.
  destruct kb, cur as [[ | ch k] | ]; simpl; rewrite !filter_app; simpl;
    rewrite ?app_nil_r, <- ?app_assoc; reflexivity.
Qed.

(** X13. Once a hotkey is set, [toggle_clicking] flips the activity flag and
    keeps the total count and the hotkey. Stopping keeps all statistics (the
    session count, the window, the observed rate and the start time stay as
    they are) and starts no thread; starting zeroes the session count,
    empties the window, records the start time and starts exactly the three
    workers. *)
Theorem toggle_flips_activity (kb pa : bool) (now : float) (a : app) :
  hotkey a <> NOT_SET ->
  let a' := step kb pa (ToggleClicking now) a in
  is_clicking a' = negb (is_clicking a) /\
  total_clicks a' = total_clicks a /\
  hotkey a' = hotkey a /\
  if is_clicking a then
    session_clicks a' = session_clicks a /\
    last_second_clicks a' = last_second_clicks a /\
    actual_cps a' = actual_cps a /\
    start_time a' = start_time a /\
    thread_starts (out a') = thread_starts (out a)
  else
    session_clicks a' = 0 /\
    last_second_clicks a' = [] /\
    actual_cps a' = actual_cps a /\
    start_time a' = Some now /\
    thread_starts (out a') = thread_starts (out a) ++ workers.
Proof.
  intros Hk. apply String.eqb_neq in Hk.
  unfold step, exec. rewrite toggle_clicking_cases, Hk.
  destruct (is_clicking a) eqn:Hc.
  - rewrite stop_clicking_state. simpl. repeat split.
    unfold thread_starts. rewrite filter_app. simpl. apply app_nil_r.
  - pose proof (start_clicking_state kb now a) as S.
    pose proof (start_clicking_threads kb now a) as T.
    cbv zeta in S. unfold exec in S, T.
    destruct S as (S1 & S2 & S3 & S4 & S5 & S6).
    repeat split; try assumption.
    destruct a as [c t s hk cur st cps w recording o].
    destruct kb, cur as [[ | ch k] | ]; reflexivity.
Qed.

(** X13, at a concrete state: toggling the session that [started] starts
    stops it. *)
Lemma toggle_flips_activity_witness :
  is_clicking (step false true (ToggleClicking (of_int 1002))
                 (run false true started init)) = false.
Proof.
  refine (proj1 (toggle_flips_activity false true (of_int 1002)
                   (run false true started init) _)).
  cbv. discriminate.
Defined.

(** X14. While the activity flag is set, a call of [start_recording_hotkey]
    is rejected with a warning: the hotkey shown, the key registered, the
    recording flag and all else but the trace are as before.  The guard is on
    this entry only: the callback [_on_press] does not test the activity
    flag, and called while a recording is pending it sets the hotkey also in
    a running session. *)
Theorem hotkey_recording_rejected_while_active
    (kb : bool) (answer name : option string) (hook_ok : bool) (n : string)
    (a : app) :
  is_clicking a = true ->
  (start_recording_hotkey kb answer hook_ok a =
     (Return tt,
      set_out (out a ++ [Dialog showwarning "Warning" "Stop clicking first"]) a) /\
   hotkey (exec (start_recording_hotkey kb answer hook_ok) a) = hotkey a /\
   current_hotkey (exec (start_recording_hotkey kb answer hook_ok) a)
     = current_hotkey a /\
   is_recording_hotkey (exec (start_recording_hotkey kb answer hook_ok) a)
     = is_recording_hotkey a) /\
  (is_recording_hotkey a = true ->
   truthy name = Some n ->
   hotkey (exec (_on_press name) a) = upper n /\
   current_hotkey (exec (_on_press name) a) = Some (lower n) /\
   is_clicking (exec (_on_press name) a) = true).
Proof.
  intros Hact. split.
  - assert (E : start_recording_hotkey kb answer hook_ok a =
                  (Return tt,
                   set_out (out a ++ [Dialog showwarning "Warning"
                                        "Stop clicking first"]) a)).
    { unfold start_recording_hotkey, bind at 1, read at 1.
      rewrite Hact. reflexivity. }
    unfold exec. rewrite E. simpl. repeat split; reflexivity.
  - intros Hrec Hn. destruct a as [c t s hk cur st cps w recording o].
    simpl in Hact, Hrec. subst c recording.
    destruct name as [[ | ch k] | ]; simpl in Hn; try discriminate.
    injection Hn as <-.
    cbv -[upper lower String.append]. repeat split; reflexivity.
Qed.

(** X14, at a session started while a recording was pending: the button is
    refused, and a key press still sets the hotkey. *)
Lemma hotkey_recording_rejected_while_active_witness :
  let a := run true true started_while_recording init in
  hotkey (exec (start_recording_hotkey true None true) a) = "F6"%string /\
  hotkey (exec (_on_press (Some "a"%string)) a) = "A"%string.
Proof.
  pose proof (hotkey_recording_rejected_while_active
                true None (Some "a"%string) true "a"
                (run true true started_while_recording init) eq_refl) as H.
  split.
  - exact (proj1 (proj2 (proj1 H))).
  - exact (proj1 (proj2 H eq_refl eq_refl)).
Defined.

(** X15. Without the keyboard module and while idle, the hotkey is taken
    from the dialog: a non-empty answer [k] sets the hotkey shown to the
    upper case of [k] and the key registered to its lower case; a cancelled
    or empty answer leaves both as they are; either way the recording flag is
    cleared again and the activity flag and the counters are untouched. *)
Theorem hotkey_from_dialog (answer : option string) (hook_ok : bool) (a : app) :
  is_clicking a = false ->
  let a' := exec (start_recording_hotkey false answer hook_ok) a in
  match truthy answer with
  | Some k => hotkey a' = upper k /\ current_hotkey a' = Some (lower k)
  | None => hotkey a' = hotkey a /\ current_hotkey a' = current_hotkey a
  end /\
  is_recording_hotkey a' = false /\
  is_clicking a' = false /\
  total_clicks a' = total_clicks a /\
  session_clicks a' = session_clicks a.
Proof.
  intros Hidle. destruct a as [c t s hk cur st cps w recording o].
  simpl in Hidle. subst c.
  destruct cur as [[ | ch1 k1] | ], answer as [[ | ch2 k2] | ];
    simpl; repeat split; reflexivity.
Qed.

(** X15, at the initial state. *)
Lemma hotkey_from_dialog_witness :
  hotkey (exec (start_recording_hotkey false (Some "f6"%string) true) init)
  = "F6"%string.
Proof.
  exact (proj1 (proj1 (hotkey_from_dialog (Some "f6"%string) true init eq_refl))).
Defined.

(** X16. With the keyboard module and while idle, [start_recording_hotkey]
    leaves the hotkey shown and the key registered in the object as they
    are, but it unhooks the key registered before, when there is one, and
    does not hook it again.  When the recording hook is installed, the
    recording flag is set and [keyboard.on_press] is the last call; when
    installing it raises, the error is reported and the recording flag is
    cleared, and the old key stays unhooked. *)
Theorem hotkey_hook_failure_unhooks_old_key
    (answer : option string) (hook_ok : bool) (a : app) :
  is_clicking a = false ->
  let a' := exec (start_recording_hotkey true answer hook_ok) a in
  hotkey a' = hotkey a /\
  current_hotkey a' = current_hotkey a /\
  is_clicking a' = false /\
  is_recording_hotkey a' = hook_ok /\
  out a' =
    out a
    ++ [ Text hotkey_btn "Press a key..."; Text status "Waiting for key press..." ]
    ++ match truthy (current_hotkey a) with
       | Some k => [Keyboard (unhook_key k)]
       | None => []
       end
    ++ (if hook_ok then [Keyboard on_press]
        else [ Dialog showerror "Error" "Unable to record hotkey";
               Text hotkey_btn "Set Hotkey";
               Text status EmptyString ]) /\
  keyboard_calls (out a') =
    keyboard_calls (out a)
    ++ match truthy (current_hotkey a) with
       | Some k => [unhook_key k]
       | None => []
       end
    ++ (if hook_ok then [on_press] else []).
Proof.
  intros Hidle. destruct a as [c t s hk cur st cps w recording o].
  simpl in Hidle. subst c.
  assert (K : forall l1 l2, keyboard_calls (l1 ++ l2)
                            = keyboard_calls l1 ++ keyboard_calls l2).
  { intros. apply flat_map_app. }
  destruct cur as [[ | ch1 k1] | ], hook_ok; simpl; repeat split;
    rewrite <- ?app_assoc; try reflexivity;
    rewrite ?K; simpl; rewrite ?app_nil_r; reflexivity.
Qed.

(** X16, after F6 was recorded: the hook cannot be installed, and the last
    call to the keyboard module is the unhooking of F6. *)
Lemma hotkey_hook_failure_unhooks_old_key_witness :
  keyboard_calls
    (out (exec (start_recording_hotkey true None false)
            (run true true key_f6_recorded init)))
  = [on_press; unhook_all; on_press_key "f6"; unhook_key "f6"].
Proof.
  exact (proj2 (proj2 (proj2 (proj2 (proj2
           (hotkey_hook_failure_unhooks_old_key None false
              (run true true key_f6_recorded init) eq_refl)))))).
Defined.

(** X17. [_on_press] records only the first named key after recording began:
    while recording, a key with a non-empty name sets the hotkey shown to its
    upper case and the key registered to its lower case and ends the
    recording; when not recording the callback does nothing; so a second key
    press changes nothing. *)
Theorem only_first_key_press_is_recorded
    (name name2 : option string) (n : string) (a : app) :
  truthy name = Some n ->
  let a1 := exec (_on_press name) a in
  (if is_recording_hotkey a
   then hotkey a1 = upper n /\ current_hotkey a1 = Some (lower n)
   else a1 = a) /\
  is_recording_hotkey a1 = false /\
  exec (_on_press name2) a1 = a1.
Proof.
  intros Hn. destruct a as [c t s hk cur st cps w recording o].
  destruct name as [[ | ch k] | ]; simpl in Hn; try discriminate.
  injection Hn as <-.
  destruct recording; cbv -[upper lower String.append];
    repeat split; reflexivity.
Qed.

(** X17, after the hook was installed at the initial state. *)
Lemma only_first_key_press_is_recorded_witness :
  hotkey (exec (_on_press (Some "F6"%string))
            (exec (start_recording_hotkey true None true) init)) = "F6"%string.
Proof.
  exact (proj1 (proj1 (only_first_key_press_is_recorded
                         (Some "F6"%string) None "F6"
                         (exec (start_recording_hotkey true None true) init)
                         eq_refl))).
Defined.

(** ** The hotkey shown and the key registered *)

Lemma upper_lower_char (c : ascii) : upper_char (lower_char c) = upper_char c.
Proof. destruct c as [[] [] [] [] [] [] [] []]; reflexivity. Qed.

Lemma lower_lower_char (c : ascii) : lower_char (lower_char c) = lower_char c.
Proof. destruct c as [[] [] [] [] [] [] [] []]; reflexivity. Qed.

Lemma upper_lower (k : string) : upper (lower k) = upper k.
Proof.
  induction k as [ | c k IH]; simpl; [ reflexivity | ].
  now rewrite upper_lower_char, IH.
Qed.

Lemma lower_lower (k : string) : lower (lower k) = lower k.
Proof.
  induction k as [ | c k IH]; simpl; [ reflexivity | ].
  now rewrite lower_lower_char, IH.
Qed.

#[export] Instance keeps_hotkey_frame : Frame keeps_hotkey.
Proof.
  split; unfold keeps_hotkey; simpl; intros; intuition congruence.
Qed.

Ltac hotkey_writes := intros ?; unfold keeps_hotkey; simpl; auto.

Lemma click_body_keeps_hotkey kb pa env :
  respects keeps_hotkey (click_body kb pa env).
Proof.
  unfold click_body, hold_check, perform_clicks, mouse_call, update_labels,
    stop_clicking.
  repeat respects_step; hotkey_writes.
Qed.

Lemma monitor_body_keeps_hotkey now ok : respects keeps_hotkey (monitor_body now ok).
Proof. unfold monitor_body. repeat respects_step; hotkey_writes. Qed.

Lemma timer_body_keeps_hotkey now ok : respects keeps_hotkey (timer_body now ok).
Proof. unfold timer_body. repeat respects_step; hotkey_writes. Qed.

Lemma toggle_clicking_keeps_hotkey kb now :
  respects keeps_hotkey (toggle_clicking kb now).
Proof.
  unfold toggle_clicking, start_clicking, register_hotkey, stop_clicking.
  repeat respects_step; hotkey_writes.
Qed.

Lemma reset_stats_keeps_hotkey answer fine :
  respects keeps_hotkey (reset_stats answer fine).
Proof. unfold reset_stats. repeat respects_step; hotkey_writes. Qed.

Lemma keeps_hotkey_matches a a' :
  keeps_hotkey a a' -> hotkey_matches a -> hotkey_matches a'.
Proof. unfold keeps_hotkey, hotkey_matches. intros [-> ->]. trivial. Qed.

Lemma recorded_key_matches (ch : ascii) (k : string) :
  lower (String ch k) <> EmptyString /\
  lower (lower (String ch k)) = lower (String ch k) /\
  upper (lower (String ch k)) = upper (String ch k).
Proof.
  split; [ simpl; discriminate | ].
  split; [ apply lower_lower | apply upper_lower ].
Qed.

Lemma step_hotkey_matches kb pa o a :
  hotkey_matches a -> hotkey_matches (step kb pa o a).
Proof.
  intros H.
  destruct o as [answer ok | name | now | env | now ok | now ok | answer fine];
    unfold step, exec.
  - destruct a as [c t s hk cur st cps w recording ou].
    unfold hotkey_matches in *.
    destruct c, kb, cur as [[ | ch1 k1] | ], answer as [[ | ch2 k2] | ], ok;
      simpl in *; first [ exact H | apply recorded_key_matches ].
  - destruct a as [c t s hk cur st cps w recording ou].
    unfold hotkey_matches in *.
    destruct recording, name as [[ | ch2 k2] | ];
      simpl in *; first [ exact H | apply recorded_key_matches ].
  - exact (keeps_hotkey_matches _ _ (toggle_clicking_keeps_hotkey kb now a) H).
  - refine (keeps_hotkey_matches _ _ _ H).
    apply respects_while; [ exact _ | apply click_body_keeps_hotkey ].
  - refine (keeps_hotkey_matches _ _ _ H).
    apply respects_while; [ exact _ | apply monitor_body_keeps_hotkey ].
  - refine (keeps_hotkey_matches _ _ _ H).
    apply respects_while; [ exact _ | apply timer_body_keeps_hotkey ].
  - exact (keeps_hotkey_matches _ _ (reset_stats_keeps_hotkey answer fine a) H).
Qed.

(** X18. In every state reached from the initial one, the hotkey shown
    belongs to the key registered: either no key is registered and the
    hotkey shown is "NOT SET", or the registered key is a non-empty
    lower-case name whose upper case is the hotkey shown. *)
Theorem hotkey_shown_is_key_registered (kb pa : bool) (ops : list op) :
  hotkey_matches (run kb pa ops init) /\
  match current_hotkey (run kb pa ops init) with
  | Some c => c <> EmptyString /\ upper c = hotkey (run kb pa ops init)
  | None => hotkey (run kb pa ops init) = NOT_SET
  end.
Proof.
  assert (H : forall a, hotkey_matches a -> hotkey_matches (run kb pa ops a)).
  { induction ops as [ | o ops IH]; intros a Ha; simpl; [ exact Ha | ].
    apply IH. now apply step_hotkey_matches. }
  specialize (H init eq_refl). split; [ exact H | ].
  unfold hotkey_matches in H.
  destruct (current_hotkey (run kb pa ops init)); tauto.
Qed.

(** ** The start time of a running session *)

#[export] Instance keeps_start_frame : Frame keeps_start.
Proof. split; unfold keeps_start; simpl; intros; intuition. Qed.

Ltac start_writes := intros ?; unfold keeps_start; simpl; intuition congruence.

Lemma click_body_keeps_start kb pa env :
  respects keeps_start (click_body kb pa env).
Proof.
  unfold click_body, hold_check, perform_clicks, mouse_call, update_labels,
    stop_clicking.
  repeat respects_step; start_writes.
Qed.

Lemma monitor_body_keeps_start now ok : respects keeps_start (monitor_body now ok).
Proof. unfold monitor_body. repeat respects_step; start_writes. Qed.

Lemma timer_body_keeps_start now ok : respects keeps_start (timer_body now ok).
Proof. unfold timer_body. repeat respects_step; start_writes. Qed.

Lemma start_recording_hotkey_keeps_start kb answer ok :
  respects keeps_start (start_recording_hotkey kb answer ok).
Proof. unfold start_recording_hotkey. repeat respects_step; start_writes. Qed.

Lemma on_press_keeps_start name : respects keeps_start (_on_press name).
Proof. unfold _on_press. repeat respects_step; start_writes. Qed.

Lemma reset_stats_keeps_start answer fine :
  respects keeps_start (reset_stats answer fine).
Proof. unfold reset_stats. repeat respects_step; start_writes. Qed.

Lemma step_start_time kb pa o a :
  (is_clicking a = true -> start_time a <> None) ->
  is_clicking (step kb pa o a) = true -> start_time (step kb pa o a) <> None.
Proof.
  intros Inv.
  assert (K : keeps_start a (step kb pa o a) ->
              is_clicking (step kb pa o a) = true ->
              start_time (step kb pa o a) <> None).
  { unfold keeps_start. intuition. }
  destruct o as [answer ok | name | now | env | now ok | now ok | answer fine].
  - apply K. exact (start_recording_hotkey_keeps_start kb answer ok a).
  - apply K. exact (on_press_keeps_start name a).
  - clear K. unfold step, exec. rewrite toggle_clicking_cases.
    destruct (String.eqb (hotkey a) NOT_SET); [ exact Inv | ].
    destruct (is_clicking a).
    + rewrite stop_clicking_state. simpl. discriminate.
    + intros _. pose proof (start_clicking_state kb now a) as S.
      cbv zeta in S. unfold exec in S.
      destruct S as (_ & S & _). rewrite S. discriminate.
  - apply K.
    exact (respects_while keeps_start _ (click_body_keeps_start kb pa env) a).
  - apply K.
    exact (respects_while keeps_start _ (monitor_body_keeps_start now ok) a).
  - apply K.
    exact (respects_while keeps_start _ (timer_body_keeps_start now ok) a).
  - apply K. exact (reset_stats_keeps_start answer fine a).
Qed.

(** X19. In every state reached from the initial one, a set activity flag
    comes with a start time: a pass of the elapsed-time reporter in a running
    session always finds [self.start_time] set. *)
Theorem running_session_has_start_time (kb pa : bool) (ops : list op) :
  is_clicking (run kb pa ops init) = true ->
  start_time (run kb pa ops init) <> None.
Proof.
  assert (H : forall a, (is_clicking a = true -> start_time a <> None) ->
                        is_clicking (run kb pa ops a) = true ->
                        start_time (run kb pa ops a) <> None).
  { induction ops as [ | o ops IH]; intros a Ha; simpl; [ exact Ha | ].
    apply IH. now apply step_start_time. }
  apply H. simpl. discriminate.
Qed.

(** X19, at the session that [started] starts. *)
Lemma running_session_has_start_time_witness :
  start_time (run false true started init) <> None.
Proof.
  exact (running_session_has_start_time false true started eq_refl).
Defined.

(** ** The session count within a session *)

Lemma toggle_flips_started kb pa now a :
  is_clicking a = false ->
  hotkey a <> NOT_SET ->
  total_clicks (step kb pa (ToggleClicking now) a) = total_clicks a /\
  session_clicks (step kb pa (ToggleClicking now) a) = 0.
Proof.
  intros Hidle Hk. apply String.eqb_neq in Hk.
  unfold step, exec. rewrite toggle_clicking_cases, Hk, Hidle.
  pose proof (start_clicking_state kb now a) as S.
  cbv zeta in S. unfold exec in S. tauto.
Qed.

#[export] Instance counters_together_frame : Frame counters_together.
Proof. split; unfold counters_together; simpl; intros; lia. Qed.

Ltac together_writes := intros ?; unfold counters_together; simpl; lia.

Lemma click_body_together kb pa env :
  respects counters_together (click_body kb pa env).
Proof.
  unfold click_body, hold_check, perform_clicks, mouse_call, update_labels,
    stop_clicking.
  repeat respects_step; together_writes.
Qed.

Lemma monitor_body_together now ok : respects counters_together (monitor_body now ok).
Proof. unfold monitor_body. repeat respects_step; together_writes. Qed.

Lemma timer_body_together now ok : respects counters_together (timer_body now ok).
Proof. unfold timer_body. repeat respects_step; together_writes. Qed.

Lemma start_recording_hotkey_together kb answer ok :
  respects counters_together (start_recording_hotkey kb answer ok).
Proof. unfold start_recording_hotkey. repeat respects_step; together_writes. Qed.

Lemma on_press_together name : respects counters_together (_on_press name).
Proof. unfold _on_press. repeat respects_step; together_writes. Qed.

Lemma step_together kb pa o a :
  in_session o = true -> counters_together a (step kb pa o a).
Proof.
  destruct o as [answer ok | name | now | env | now ok | now ok | answer fine];
    unfold step, exec; intros Ho; try discriminate.
  - apply start_recording_hotkey_together.
  - apply on_press_together.
  - apply respects_while; [ exact _ | apply click_body_together ].
  - apply respects_while; [ exact _ | apply monitor_body_together ].
  - apply respects_while; [ exact _ | apply timer_body_together ].
Qed.

Lemma run_together kb pa ops a :
  forallb in_session ops = true -> counters_together a (run kb pa ops a).
Proof.
  revert a. induction ops as [ | o ops IH]; intros a Hall; simpl.
  - apply frame_refl.
  - simpl in Hall. apply andb_prop in Hall. destruct Hall as [Ho Hall].
    eapply frame_trans; [ apply (step_together kb pa o a Ho) | apply IH, Hall ].
Qed.

(** X20. The session count is the number of clicks added to the total count
    since the session was started: after a start from an idle state with a
    hotkey, and any steps that neither toggle nor reset, the session count is
    the total count minus the total count at the start. *)
Theorem session_counts_clicks_since_start
    (kb pa : bool) (now : float) (ops : list op) (a : app) :
  is_clicking a = false ->
  hotkey a <> NOT_SET ->
  forallb in_session ops = true ->
  let s := run kb pa (ToggleClicking now :: ops) a in
  session_clicks s = total_clicks s - total_clicks a.
Proof.
  intros Hidle Hk Hall. cbv zeta. cbn [run fold_left].
  pose proof (toggle_flips_started kb pa now a Hidle Hk) as [T S].
  pose proof (run_together kb pa ops (step kb pa (ToggleClicking now) a) Hall) as R.
  unfold counters_together in R. unfold run in *. lia.
Qed.

(** X20, at a session with a double and a single click, observed by the
    reporter in between. *)
Lemma session_counts_clicks_since_start_witness :
  let a := run false true [StartRecordingHotkey (Some "f6"%string) true] init in
  let s := run false true
             [ ToggleClicking (of_int 1000);
               ClickLoopIteration (plain_click "double" (of_int 1000));
               MonitorCpsIteration (of_int 1000) true;
               ClickLoopIteration (plain_click "single" (of_int 1001)) ] a in
  session_clicks s = total_clicks s - total_clicks a.
Proof.
  apply (session_counts_clicks_since_start false true (of_int 1000)
           [ ClickLoopIteration (plain_click "double" (of_int 1000));
             MonitorCpsIteration (of_int 1000) true;
             ClickLoopIteration (plain_click "single" (of_int 1001)) ]
           (run false true [StartRecordingHotkey (Some "f6"%string) true] init)).
  - reflexivity.
  - cbv. discriminate.
  - reflexivity.
Defined.

(** ** Closing the window *)

(** X21. [on_closing] asks before it ends a running session: a declined exit
    changes nothing but the trace and does not destroy the window; otherwise
    the activity flag is cleared with the counters untouched, the window is
    destroyed, and every worker leaves its loop at its next test without
    another pass. *)
Theorem on_closing_stops_workers
    (kb pa : bool) (answer : bool) (env : click_env) (rest : list click_env)
    (tick : float * bool) (ticks : list (float * bool)) (a : app) :
  let a' := exec (on_closing kb answer) a in
  if is_clicking a && negb answer then
    on_closing kb answer a =
      (Return false,
       set_out (out a ++ [Dialog askyesno "Exit" "Clicking is active. Exit anyway?"]) a)
  else
    fst (on_closing kb answer a) = Return true /\
    is_clicking a' = false /\
    total_clicks a' = total_clicks a /\
    session_clicks a' = session_clicks a /\
    click_loop kb pa (env :: rest) a' = (Return Exited, a') /\
    monitor_cps (tick :: ticks) a' = (Return Exited, a') /\
    update_timer (tick :: ticks) a' = (Return Exited, a').
Proof.
  assert (E : if is_clicking a && negb answer
              then on_closing kb answer a =
                     (Return false,
                      set_out (out a ++ [Dialog askyesno "Exit"
                                           "Clicking is active. Exit anyway?"]) a)
              else fst (on_closing kb answer a) = Return true /\
                   is_clicking (snd (on_closing kb answer a)) = false /\
                   total_clicks (snd (on_closing kb answer a)) = total_clicks a /\
                   session_clicks (snd (on_closing kb answer a)) = session_clicks a).
  { destruct a as [c t s hk cur st cps w recording o].
    destruct c, answer, kb; simpl; repeat split; reflexivity. }
  cbv zeta. unfold exec.
  destruct (is_clicking a && negb answer); [ exact E | ].
  destruct E as (E1 & E2 & E3 & E4).
  repeat split; try assumption;
    apply while_loop_terminal; solve [ discriminate | assumption ].
Qed.

(** ** The throttle of the resize handler *)

Lemma last_cons_default {A} (x d : A) (l : list A) : last (x :: l) d = last l x.
Proof.
  revert x d. induction l as [ | y l IH]; intros x d; [ reflexivity | ].
  change (last (x :: y :: l) d) with (last (y :: l) d).
  rewrite (IH y d), (IH y x). reflexivity.
Qed.

(** X22. The throttled resize callback lets a call through only if its
    clock reading is not less than 0.06 s after the one it last let through:
    over any calls, the readings let through are spaced that way, starting
    from the initial [last["t"]]; they are among the calls made; and the
    stored reading ends as the last one let through. *)
Theorem resize_calls_are_spaced (nows : list float) (last0 : float) :
  spaced last0 (fst (cb_run nows last0)) /\
  incl (fst (cb_run nows last0)) nows /\
  snd (cb_run nows last0) = last (fst (cb_run nows last0)) last0.
Proof.
  revert last0. induction nows as [ | now rest IH]; intros last0.
  - simpl. repeat split. apply incl_refl.
  - cbn [cb_run]. unfold cb.
    destruct (ltb (sub now last0) lit_0_06) eqn:Hlt.
    + specialize (IH last0).
      destruct (cb_run rest last0) as [through final]. simpl in *.
      destruct IH as (S & I & L).
      repeat split; [ exact S | apply incl_tl, I | exact L ].
    + specialize (IH now).
      destruct (cb_run rest now) as [through final]. simpl fst in *. simpl snd in *.
      destruct IH as (S & I & L).
      split; [ | split ].
      * simpl. split; assumption.
      * apply incl_cons; [ left; reflexivity | apply incl_tl, I ].
      * rewrite last_cons_default. exact L.
Qed.

(** ** The click loop does not spin *)

Lemma last_after_injection env t s d :
  exists i, last (after_injection env t s) d = Sleep i /\
            (i = lit_0_01 \/ leb lit_0_002 i = true).
Proof.
  unfold after_injection.
  destruct (cps_get env) as [r | ].
  - eexists. split; [ apply last_last | ].
    right. now apply max_lower_bound.
  - eexists. split; [ | left; reflexivity ].
    change [Stdout "Click error:"; Sleep lit_0_01]
      with ([Stdout "Click error:"] ++ [Sleep lit_0_01]).
    rewrite app_assoc. apply last_last.
Qed.

Lemma last_app_nonempty {A} (l1 l2 : list A) (d : A) :
  l2 <> [] -> last (l1 ++ l2) d = last l2 d.
Proof.
  intros H. induction l1 as [ | x l1 IH]; [ reflexivity | ].
  rewrite <- IH. simpl.
  destruct (l1 ++ l2) eqn:E; [ | reflexivity ].
  apply app_eq_nil in E. destruct E. contradiction.
Qed.

Lemma after_injection_nonempty env t s : after_injection env t s <> [].
Proof.
  unfold after_injection. intros E. apply app_eq_nil in E.
  destruct E as [_ E]. destruct (cps_get env); discriminate.
Qed.

(** X4. A pass of the click loop that does not fail at the injection ends
    with a sleep: 0.001 s when it idles in hold mode, 0.01 s after a read
    failure, and otherwise the paced interval, which is at least 0.002 s. As
    a pass that fails at the injection returns from the loop, the loop never
    spins. *)
Theorem click_loop_never_spins
    (kb pa : bool) (env : click_env) (a : app) (d : effect) :
  pass_fails kb pa env = false ->
  exists i,
    last (out (exec (click_body kb pa env) a)) d = Sleep i /\
    (i = lit_0_001 \/ i = lit_0_01 \/ leb lit_0_002 i = true).
Proof.
  unfold pass_fails, exec. intros H.
  destruct (click_mode_get env) as [mode | ] eqn:Hmode.
  2:{ rewrite (click_body_mode_unreadable kb pa env a Hmode). simpl.
      exists lit_0_01. split; [ | tauto ].
      change [Stdout "Click error:"; Sleep lit_0_01]
        with ([Stdout "Click error:"] ++ [Sleep lit_0_01]).
      rewrite app_assoc. apply last_last. }
  destruct (holds_idle kb env) eqn:Hidle.
  { rewrite (click_body_idles kb pa env a Hidle). simpl.
    exists lit_0_001. split; [ apply last_last | tauto ]. }
  destruct (click_type_get env) as [ct | ] eqn:Hct.
  2:{ rewrite (click_body_type_unreadable kb pa env mode a Hmode Hidle Hct). simpl.
      exists lit_0_01. split; [ | tauto ].
      change [Stdout "Click error:"; Sleep lit_0_01]
        with ([Stdout "Click error:"] ++ [Sleep lit_0_01]).
      rewrite app_assoc. apply last_last. }
  simpl in H.
  destruct (no_injection_fault_button pa env (click_count ct) H) as [b Hb].
  rewrite (click_body_injected kb pa env a mode ct b Hmode Hidle Hct Hb H). simpl.
  rewrite !app_assoc.
  rewrite last_app_nonempty by apply after_injection_nonempty.
  destruct (last_after_injection env (total_clicks a + click_count ct)
              (session_clicks a + click_count ct) d) as [i [L B]].
  exists i. split; [ exact L | tauto ].
Qed.

(** X4, at a plain pass at one click per second: the pass sleeps 1.0 s. *)
Lemma click_loop_never_spins_witness :
  exists i,
    last (out (exec (click_body false true (plain_click "single" (of_int 1000)))
                 (run false true started init))) (Stdout EmptyString) = Sleep i /\
    (i = lit_0_001 \/ i = lit_0_01 \/ leb lit_0_002 i = true).
Proof.
  exact (click_loop_never_spins false true (plain_click "single" (of_int 1000))
           (run false true started init) (Stdout EmptyString) eq_refl).
Defined.

(** ** The counters under the finer interleaving *)

#[export] Instance counters_fixed_frame : Frame counters_fixed.
Proof. split; unfold counters_fixed; simpl; intros; intuition congruence. Qed.





(** The two halves of a pass make the pass. *)
Lemma click_body_split kb pa env a :
  click_body kb pa env a =
    match click_body_to_458 kb pa env a with
    | (Return (inr clicks), a') => click_body_from_459 env clicks a'
    | (Return (inl f), a') => (Return f, a')
    | (Raise, a') => (Raise, a')
    end.
Proof.
  unfold click_body, click_body_to_458, click_body_from_459, try_except, bind.
  destruct (hold_check kb env a) as [[[ | ] | ] a1]; try reflexivity.
  unfold external, ret, raise.
  destruct (click_type_get env) as [ct | ]; [ | reflexivity ].
  destruct (perform_clicks pa env (click_count ct) a1) as [[[] | ] a2].
  - cbv beta iota. unfold modify. cbv beta iota.
    destruct (update_labels env
                (set_last_second_clicks
                   (last_second_clicks
                      (set_session_clicks
                         (session_clicks
                            (set_total_clicks (total_clicks a2 + click_count ct) a2)
                          + click_count ct)
                         (set_total_clicks (total_clicks a2 + click_count ct) a2))
                    ++ [time_time env])
                   (set_session_clicks
                      (session_clicks
                         (set_total_clicks (total_clicks a2 + click_count ct) a2)
                       + click_count ct)
                      (set_total_clicks (total_clicks a2 + click_count ct) a2))))
      as [[[] | ] a3]; reflexivity.
  - cbv beta iota.
    destruct (emit (Stdout "pyautogui.click failed; stopping clicking") a2)
      as [[[] | ] a3]; [ | reflexivity ].
    destruct (stop_clicking a3) as [[[] | ] a4]; reflexivity.
Qed.

(** The two halves of a reset make the reset. *)
Lemma reset_stats_split answer fine a :
  reset_stats answer fine a =
    match reset_ask a with
    | (Return true, a') => reset_answer answer fine a'
    | (Return false, a') => (Return tt, a')
    | (Raise, a') => (Raise, a')
    end.
Proof.
  destruct a as [c t s hk cur st cps w recording o].
  destruct c, answer, fine; reflexivity.
Qed.

(** With no thread in flight and no dialog open, the two halves taken one
    after the other are the whole step: the finer interleaving contains the
    coarser one. *)
Lemma fine_halves_make_whole kb pa env answer fine a :
  let st := mkFine a [] false in
  fine_step kb pa (ClickFrom459 0) (fine_step kb pa (ClickTo458 env) st) =
    fine_step kb pa (Whole (ClickLoopIteration env)) st /\
  fine_step kb pa (ResetAnswer answer fine) (fine_step kb pa ResetAsk st) =
    fine_step kb pa (Whole (ResetStats answer fine)) st.
Proof.
  cbv zeta. split.
  - unfold fine_step, step, exec. cbn [shared in_flight dialog_open].
    unfold while_is_clicking, bind at 1, read at 1.
    destruct (is_clicking a) eqn:Hc; [ | reflexivity ].
    unfold bind at 1, ret. rewrite (click_body_split kb pa env a).
    destruct (click_body_to_458 kb pa env a) as [[[f | clicks] | ] a'];
      cbn [shared in_flight dialog_open nth_error remove_nth]; try reflexivity.
    destruct (click_body_from_459 env clicks a') as [[f | ] a'']; reflexivity.
  - unfold fine_step, step, exec. cbn [shared in_flight dialog_open].
    rewrite (reset_stats_split answer fine a).
    destruct (reset_ask a) as [[[ | ] | ] a'];
      cbn [shared in_flight dialog_open]; reflexivity.
Qed.










